(** * Event-loop responsiveness tracer (toolkit/xre/EventTracer.cpp)

    A shallow embedding of the tracer thread, of its configuration from the
    environment and of the start/stop entry points, with the properties of
    the sampler that the design document states.

    Conventions.
    - [int] and [PRUint32]/[PRIntervalTime] are [Z] with the range of the
      type; conversions and wrap-around are written out.
    - A [double] that holds a finite value is a rational number; the values
      read from the clock are [Q].  Comparing a [PRIntervalTime] with a
      [double] converts the integer exactly, so it is the comparison of the
      two rationals.
    - The process state that the functions read and write (environment,
      files, standard output, the two file-scope variables, the widget
      backend) is one record, passed explicitly. *)

From Stdlib Require Import ZArith QArith Qround Qminmax Qabs Lia Lqa Bool Ascii.
From Stdlib Require Import DecimalString.
From Stdlib Require DecimalZ.
From stdpp Require Import base option list strings gmap.

Local Open Scope Z_scope.

(** ** Machine integers *)

Definition INT_MAX : Z := 2147483647.
Definition INT_MIN : Z := -2147483648.
Definition UINT32_MOD : Z := 4294967296.

(** An [int] passed where a [PRUint32] is expected, and unsigned 32-bit
    arithmetic. *)
Definition to_uint32 (z : Z) : Z := z mod UINT32_MOD.

(** [int(x)] on a [double]: the fractional part is discarded (the value is
    truncated toward zero).  C++ leaves the conversion undefined when the
    truncated value is outside [int]; the statements about the number that
    the cast yields (the next sleep, the duration in a sample line) keep its
    argument within that range. *)
Definition int_of_double (x : Q) : Z := Z.quot (Qnum x) (Zpos (Qden x)).

(** [a > b] on doubles. *)
Definition Qgtb (a b : Q) : bool :=
  Qnum b * Zpos (Qden a) <? Qnum a * Zpos (Qden b).

(** ** The C library's [atoi] *)

Definition isspace (a : ascii) : bool :=
  let n := Z.of_N (N_of_ascii a) in
  (n =? 32) || ((9 <=? n) && (n <=? 13)).

Definition digit_val (a : ascii) : option Z :=
  let n := Z.of_N (N_of_ascii a) in
  if (48 <=? n) && (n <=? 57) then Some (n - 48) else None.

Fixpoint skip_spaces (s : string) : string :=
  match s with
  | String a r => if isspace a then skip_spaces r else s
  | EmptyString => s
  end.

Fixpoint digits (acc : Z) (s : string) : Z :=
  match s with
  | String a r =>
      match digit_val a with
      | Some d => digits (10 * acc + d) r
      | None => acc
      end
  | EmptyString => acc
  end.

(** The integer that the text denotes: leading white space, an optional
    sign, then the longest run of decimal digits (0 when there is none). *)
Definition parsed_value (s : string) : Z :=
  match skip_spaces s with
  | String "-"%char r => - digits 0 r
  | String "+"%char r => digits 0 r
  | r => digits 0 r
  end.

Definition saturate (z : Z) : Z :=
  if z <? INT_MIN then INT_MIN else if INT_MAX <? z then INT_MAX else z.

(** Modelled from the spec: [atoi] (the C library, <stdlib.h>) is not part
    of the source file.  On a text whose value fits an [int] it returns that
    value, and this is all that the statement on the resolution of the
    overrides relies on.  For a value that does not fit, C leaves the result
    undefined and implementations differ (one built on [strtol] may keep the
    low bits of a [long]); here it comes back as the nearest bound, the
    case that the callers' tests against [INT_MAX] and [INT_MIN] provide
    for. *)
Definition atoi (s : string) : Z := saturate (parsed_value s).

(** ** Log lines *)

Inductive LogLine : Type :=
  | TraceStart (timestamp : Z)
  | TraceSample (timestamp : Z) (duration : Z)
  | TraceStop (timestamp : Z).

Definition is_start (l : LogLine) : bool :=
  match l with TraceStart _ => true | _ => false end.
Definition is_sample (l : LogLine) : bool :=
  match l with TraceSample _ _ => true | _ => false end.
Definition is_stop (l : LogLine) : bool :=
  match l with TraceStop _ => true | _ => false end.

Definition decimal (z : Z) : string := NilZero.string_of_int (Z.to_int z).

(** [%llu] prints its argument as an unsigned 64-bit number. *)
Definition llu (z : Z) : string := decimal (z mod 2 ^ 64).

(** The three [fprintf] formats, without the final newline: a file is kept
    as the list of its lines. *)
Definition render (l : LogLine) : string :=
  match l with
  | TraceStart t => "MOZ_EVENT_TRACE start " +:+ llu t
  | TraceSample t d => "MOZ_EVENT_TRACE sample " +:+ llu t +:+ " " +:+ decimal d
  | TraceStop t => "MOZ_EVENT_TRACE stop " +:+ llu t
  end.

(** [PR_USEC_PER_MSEC] comes from prtime.h; the header comment of the source
    gives the time stamps as "PRTime / 1000". *)
Definition PR_USEC_PER_MSEC : Z := 1000.

(** ** The process state *)

Record TracerStartClosure : Type := { mLogTracing : bool }.

(** A [FILE*]: the standard output, or a stream opened on a path. *)
Inductive FILE : Type :=
  | stdout
  | stream (path : string).

Record World : Type := mkWorld {
  environ : gmap string string;        (* what PR_GetEnv reads *)
  unwritable : gset string;            (* paths on which fopen(_, "w") fails *)
  files : gmap string (list string);   (* the files, as lists of lines *)
  open_streams : gset string;          (* streams opened and not yet closed *)
  console : list string;               (* what went to the standard output *)
  sleeps : list Z;                     (* the arguments of PR_Sleep, in order *)
  sTracerThread : option nat;          (* NULL, or the handle of a thread *)
  sExit : bool;
  threads : gmap nat TracerStartClosure; (* live threads running TracerThread *)
  widget_tracing : bool                (* the widget backend is initialised *)
}.

Definition set_files (f : gmap string (list string)) (w : World) : World :=
  mkWorld (environ w) (unwritable w) f (open_streams w) (console w)
          (sleeps w) (sTracerThread w) (sExit w) (threads w) (widget_tracing w).
Definition set_open_streams (o : gset string) (w : World) : World :=
  mkWorld (environ w) (unwritable w) (files w) o (console w)
          (sleeps w) (sTracerThread w) (sExit w) (threads w) (widget_tracing w).
Definition set_console (c : list string) (w : World) : World :=
  mkWorld (environ w) (unwritable w) (files w) (open_streams w) c
          (sleeps w) (sTracerThread w) (sExit w) (threads w) (widget_tracing w).
Definition set_sleeps (s : list Z) (w : World) : World :=
  mkWorld (environ w) (unwritable w) (files w) (open_streams w) (console w)
          s (sTracerThread w) (sExit w) (threads w) (widget_tracing w).
Definition set_sTracerThread (t : option nat) (w : World) : World :=
  mkWorld (environ w) (unwritable w) (files w) (open_streams w) (console w)
          (sleeps w) t (sExit w) (threads w) (widget_tracing w).
Definition set_sExit (b : bool) (w : World) : World :=
  mkWorld (environ w) (unwritable w) (files w) (open_streams w) (console w)
          (sleeps w) (sTracerThread w) b (threads w) (widget_tracing w).
Definition set_threads (t : gmap nat TracerStartClosure) (w : World) : World :=
  mkWorld (environ w) (unwritable w) (files w) (open_streams w) (console w)
          (sleeps w) (sTracerThread w) (sExit w) t (widget_tracing w).
Definition set_widget_tracing (b : bool) (w : World) : World :=
  mkWorld (environ w) (unwritable w) (files w) (open_streams w) (console w)
          (sleeps w) (sTracerThread w) (sExit w) (threads w) b.

(** ** The library calls of the tracer thread *)

Definition PR_GetEnv (name : string) (w : World) : option string :=
  environ w !! name.

(** [fopen(path, "w")]: NULL when the path cannot be opened for writing;
    otherwise the file is created, or truncated to zero length. *)
Definition fopen_w (path : string) (w : World) : option FILE * World :=
  if decide (path ∈ unwritable w) then (None, w)
  else (Some (stream path),
        set_open_streams ({[path]} ∪ open_streams w)
          (set_files (<[path := []]> (files w)) w)).

Definition contents (log : FILE) (w : World) : list string :=
  match log with
  | stdout => console w
  | stream path => default [] (files w !! path)
  end.

Definition fprintf (log : FILE) (line : LogLine) (w : World) : World :=
  match log with
  | stdout => set_console (console w ++ [render line]) w
  | stream path =>
      set_files (<[path := contents log w ++ [render line]]> (files w)) w
  end.

Definition fclose (log : FILE) (w : World) : World :=
  match log with
  | stdout => w
  | stream path => set_open_streams (open_streams w ∖ {[path]}) w
  end.

Definition PR_Sleep (ticks : Z) (w : World) : World :=
  set_sleeps (sleeps w ++ [ticks]) w.

(** ** What the thread observes while it runs

    The clock, the foreground loop and the thread that calls
    [ShutdownEventTracing] are outside the function; what the tracer thread
    reads from them during one run is given to it. *)

(** A [TimeDuration], by the two readings the loop takes of it:
    [ToMilliseconds()], and the double that [ToSecondsSigDigits() * 1000]
    evaluates to (a floating-point product, so it is taken as read, not
    recomputed over the rationals). *)
Record TimeDuration : Type := {
  ToMilliseconds : Q;
  ToSecondsSigDigits_x1000 : Q
}.

(** One turn of the [while] loop, entered because [sExit] was read false. *)
Record Turn : Type := {
  (* [Some d] when FireAndWaitForTracerEvent() returned true, [d] being
     TimeStamp::Now() - start; [None] when it returned false *)
  probe : option TimeDuration;
  (* PR_Now(), should the sample be printed *)
  sample_now : Z;
  (* sExit as line 157 reads it *)
  exit_before_sleep : bool
}.

(** A whole run of the thread: the loop makes the turns of [turns] and then
    reads [sExit] true. *)
Record Run : Type := {
  start_now : Z;
  turns : list Turn;
  stop_now : Z
}.

Section Tracer.

(** [PR_MillisecondsToInterval] belongs to NSPR (prinrval.h), not to the
    source file: the number of interval ticks in a number of milliseconds,
    a [PRUint32] to a [PRIntervalTime].  The tracer is verified for any such
    conversion. *)
Variable PR_MillisecondsToInterval : Z -> Z.

(** Lines 110-116 and 118-124: the value of [threshold] (of [interval])
    after the environment variable has been looked at, [current] being its
    value before. *)
Definition override (env : option string) (current : Z) : Z :=
  match env with
  | Some (String _ _ as text) =>
      let val := atoi text in
      if negb (val =? 0) && negb (val =? INT_MAX) && negb (val =? INT_MIN)
      then PR_MillisecondsToInterval (to_uint32 val)
      else current
  | _ => current
  end.

Definition resolve_threshold (env : option string) : Z :=
  override env (PR_MillisecondsToInterval 20).

Definition resolve_interval (env : option string) : Z :=
  override env (PR_MillisecondsToInterval 10).

(** Lines 102-108. *)
Definition open_log (w : World) : FILE * World :=
  match PR_GetEnv "MOZ_INSTRUMENT_EVENT_LOOP_OUTPUT" w with
  | Some envfile =>
      match fopen_w envfile w with
      | (Some log, w') => (log, w')
      | (None, w') => (stdout, w')
      end
  | None => (stdout, w)
  end.

(** Lines 133-155: the probe and what follows it; the result is
    [next_sleep]. *)
Definition probe_step (logTracing : bool) (log : FILE) (threshold interval : Z)
    (t : Turn) (w : World) : Z * World :=
  let next_sleep := interval in
  match probe t with
  | Some duration =>
      let w1 :=
        if logTracing && Qgtb (ToMilliseconds duration) (inject_Z threshold)
        then fprintf log
               (TraceSample (Z.quot (sample_now t) PR_USEC_PER_MSEC)
                            (int_of_double (ToSecondsSigDigits_x1000 duration)))
               w
        else w in
      if Qgtb (inject_Z next_sleep) (ToMilliseconds duration)
      then (to_uint32
              (next_sleep - int_of_double (ToMilliseconds duration)), w1)
      else (0, w1)
  | None => (next_sleep, w)
  end.

(** Lines 157-159. *)
Definition sleep_step (next_sleep : Z) (t : Turn) (w : World) : World :=
  if negb (next_sleep =? 0) && negb (exit_before_sleep t)
  then PR_Sleep next_sleep w
  else w.

(** The body of the [while] loop.  [profiler_responsiveness(start)] hands the
    time stamp to the profiler and touches nothing of this state. *)
Definition loop_body (logTracing : bool) (log : FILE) (threshold interval : Z)
    (t : Turn) (w : World) : World :=
  let '(next_sleep, w1) := probe_step logTracing log threshold interval t w in
  sleep_step next_sleep t w1.

Fixpoint tracer_loop (logTracing : bool) (log : FILE) (threshold interval : Z)
    (ts : list Turn) (w : World) : World :=
  match ts with
  | [] => w
  | t :: ts' =>
      tracer_loop logTracing log threshold interval ts'
        (loop_body logTracing log threshold interval t w)
  end.

Definition TracerThread (threadArgs : TracerStartClosure) (r : Run) (w : World)
    : World :=
  let w := set_sExit false w in
  let '(log, w) := open_log w in
  let threshold :=
    resolve_threshold (PR_GetEnv "MOZ_INSTRUMENT_EVENT_LOOP_THRESHOLD" w) in
  let interval :=
    resolve_interval (PR_GetEnv "MOZ_INSTRUMENT_EVENT_LOOP_INTERVAL" w) in
  let w :=
    if mLogTracing threadArgs
    then fprintf log (TraceStart (Z.quot (start_now r) PR_USEC_PER_MSEC)) w
    else w in
  let w :=
    tracer_loop (mLogTracing threadArgs) log threshold interval (turns r) w in
  let w :=
    if mLogTracing threadArgs
    then fprintf log (TraceStop (Z.quot (stop_now r) PR_USEC_PER_MSEC)) w
    else w in
  match log with
  | stdout => w
  | stream _ => fclose log w
  end.

(** ** Start and stop *)

(** [InitEventTracing].  [widget_ok] is what [InitWidgetTracing()] returns,
    [spawned] whether [PR_CreateThread] could create the thread; the handle
    of a new thread is a number no live thread has. *)
Definition InitEventTracing (aLog : bool) (widget_ok spawned : bool) (w : World)
    : bool * World :=
  match sTracerThread w with
  | Some _ => (true, w)
  | None =>
      if negb widget_ok then (false, w)
      else
        let w := set_widget_tracing true w in
        let args := {| mLogTracing := aLog |} in
        if spawned then
          let h := fresh (dom (threads w)) in
          let w := set_threads (<[h := args]> (threads w)) w in
          let w := set_sTracerThread (Some h) w in
          (true, w)
        else
          let w := set_sTracerThread None w in
          (false, w)
  end.

(** [ShutdownEventTracing].  [PR_JoinThread] returns when the thread has run
    [TracerThread] to its end, and [r] is the run it made: the loop made the
    turns of [r] before it read the [true] stored here, so the effects of
    the thread, its own store to [sExit] first among them, are accounted for
    at the join and the store of [true] is the last write to [sExit]. *)
Definition ShutdownEventTracing (r : Run) (w : World) : World :=
  match sTracerThread w with
  | None => w
  | Some h =>
      let w :=
        match threads w !! h with
        | Some args =>
            set_threads (delete h (threads w))
              (set_sExit true (TracerThread args r w))
        | None => set_sExit true w
        end in
      let w := set_sTracerThread None w in
      set_widget_tracing false w
  end.

(** The calls that the embedding program makes, with what each of them
    meets: the answers of the widget backend and of [PR_CreateThread] for a
    start, the run that the joined thread has made for a stop. *)
Inductive Call : Type :=
  | CallStart (aLog widget_ok spawned : bool)
  | CallStop (r : Run).

Definition call (w : World) (c : Call) : World :=
  match c with
  | CallStart aLog widget_ok spawned =>
      snd (InitEventTracing aLog widget_ok spawned w)
  | CallStop r => ShutdownEventTracing r w
  end.

Definition calls (cs : list Call) (w : World) : World := foldl call w cs.

End Tracer.

(** The thread table agrees with the handle: the handle names the only live
    tracer thread, or there is neither. *)
Definition tracked (w : World) : Prop :=
  match sTracerThread w with
  | Some h => exists args, threads w = {[ h := args ]}
  | None => threads w = ∅
  end.

(** ** What a run prints *)

(** The sample that a turn prints, if it prints one. *)
Definition sample_of (logTracing : bool) (threshold : Z) (t : Turn)
    : option LogLine :=
  match probe t with
  | Some duration =>
      if logTracing && Qgtb (ToMilliseconds duration) (inject_Z threshold)
      then Some (TraceSample (Z.quot (sample_now t) PR_USEC_PER_MSEC)
                   (int_of_double (ToSecondsSigDigits_x1000 duration)))
      else None
  | None => None
  end.

(** The stream that the thread logs to, and what the stream holds when the
    thread has opened it. *)
Definition log_of (w : World) : FILE := fst (open_log w).

Definition log_before (w : World) : list string :=
  match log_of w with
  | stdout => console w
  | stream _ => []
  end.

(** The files after lines 102-108. *)
Definition files_after_open (w : World) : gmap string (list string) :=
  match PR_GetEnv "MOZ_INSTRUMENT_EVENT_LOOP_OUTPUT" w with
  | Some envfile =>
      if decide (envfile ∈ unwritable w) then files w
      else <[envfile := []]> (files w)
  | None => files w
  end.

(** The lines of a run with logging enabled. *)
Definition run_lines (threshold : Z) (r : Run) : list LogLine :=
  TraceStart (Z.quot (start_now r) PR_USEC_PER_MSEC)
  :: omap (sample_of true threshold) (turns r)
  ++ [TraceStop (Z.quot (stop_now r) PR_USEC_PER_MSEC)].

(** The argument of the [PR_Sleep] that a turn makes, if it makes one
    (lines 133, 147-154 and 157-159). *)
Definition sleep_of (interval : Z) (t : Turn) : option Z :=
  let next_sleep :=
    match probe t with
    | Some duration =>
        if Qgtb (inject_Z interval) (ToMilliseconds duration)
        then to_uint32 (interval - int_of_double (ToMilliseconds duration))
        else 0
    | None => interval
    end in
  if negb (next_sleep =? 0) && negb (exit_before_sleep t)
  then Some next_sleep
  else None.

(** A text without a blank in it. *)
Fixpoint spaceless (s : string) : bool :=
  match s with
  | EmptyString => true
  | String a r => negb (Ascii.eqb a " ") && spaceless r
  end.

(** Time stamps that [%llu] prints as they are. *)
Definition printable (l : LogLine) : Prop :=
  match l with
  | TraceStart t | TraceStop t | TraceSample t _ => 0 <= t < 2 ^ 64
  end.

(** ** Concrete platforms, states and runs for the examples *)

(** The conversion on a platform whose interval timer ticks once a
    millisecond ([PR_TicksPerSecond() = 1000]). *)
Definition ticks_1kHz (milli : Z) : Z := milli.

(** A process with an empty environment, no file and no tracer. *)
Definition quiet_world : World :=
  mkWorld ∅ ∅ ∅ ∅ [] [] None false ∅ false.

(** A process whose environment redirects the log to a file that already
    holds a line. *)
Definition redirected_world : World :=
  mkWorld {[ "MOZ_INSTRUMENT_EVENT_LOOP_OUTPUT" := "trace.log" ]} ∅
          {[ "trace.log" := ["earlier contents"] ]} ∅ [] [] None false ∅ false.

(** A process whose environment names an output file that cannot be
    opened. *)
Definition locked_world : World :=
  mkWorld {[ "MOZ_INSTRUMENT_EVENT_LOOP_OUTPUT" := "trace.log" ]}
          {[ "trace.log" ]} ∅ ∅ ["before"] [] None false ∅ false.

(** The widget backend is initialised whenever the handle is set. *)
Definition backed (w : World) : Prop :=
  is_Some (sTracerThread w) -> widget_tracing w = true.

(** A duration whose two readings agree. *)
Definition millis (ms : Q) : TimeDuration :=
  {| ToMilliseconds := ms; ToSecondsSigDigits_x1000 := ms |}.

Definition completed (ms : Q) (now : Z) : Turn :=
  {| probe := Some (millis ms); sample_now := now; exit_before_sleep := false |}.

Definition interrupted : Turn :=
  {| probe := None; sample_now := 0; exit_before_sleep := true |}.

(** A probe of 5 ms, one of 35.7 ms, then shutdown during the third. *)
Definition short_run : Run :=
  {| start_now := 1000000;
     turns := [completed (5 # 1) 2000000; completed (357 # 10) 3000000;
               interrupted];
     stop_now := 4000000 |}.

Definition idle_run : Run :=
  {| start_now := 0; turns := []; stop_now := 0 |}.

(** ** Arithmetic of the casts and comparisons *)

Lemma Qgtb_lt (a b : Q) : Qgtb a b = true <-> (b < a)%Q.
Proof. unfold Qgtb, Qlt. apply Z.ltb_lt. Qed.

Lemma Qgtb_le (a b : Q) : Qgtb a b = false <-> (a <= b)%Q.
Proof. unfold Qgtb, Qle. apply Z.ltb_ge. Qed.

Lemma saturate_range (z : Z) : INT_MIN <= saturate z <= INT_MAX.
Proof.
  unfold saturate, INT_MIN, INT_MAX.
  destruct (Z.ltb_spec z (-2147483648)); [lia|].
  destruct (Z.ltb_spec 2147483647 z); lia.
Qed.

Lemma saturate_id (z : Z) : INT_MIN <= z <= INT_MAX -> saturate z = z.
Proof.
  unfold saturate, INT_MIN, INT_MAX. intros Hz.
  destruct (Z.ltb_spec z (-2147483648)); [lia|].
  destruct (Z.ltb_spec 2147483647 z); lia.
Qed.

Lemma atoi_range (s : string) : INT_MIN <= atoi s <= INT_MAX.
Proof. apply saturate_range. Qed.

Lemma to_uint32_small (z : Z) : 0 <= z < UINT32_MOD -> to_uint32 z = z.
Proof. intros Hz. unfold to_uint32. apply Z.mod_small. exact Hz. Qed.

Lemma int_of_double_nonneg_floor (x : Q) :
  (0 <= x)%Q -> int_of_double x = Qfloor x.
Proof.
  destruct x as [n d]. unfold Qle, int_of_double, Qfloor. simpl.
  intros Hn. rewrite Z.mul_1_r in Hn.
  apply Z.quot_div_nonneg; lia.
Qed.

Lemma int_of_double_inject_Z (n : Z) : int_of_double (inject_Z n) = n.
Proof. unfold int_of_double, inject_Z. simpl. apply Z.quot_1_r. Qed.

(** Truncation moves toward zero by less than one. *)
Lemma int_of_double_toward_zero (x : Q) :
  ((0 <= x -> inject_Z (int_of_double x) <= x
             /\ x < inject_Z (int_of_double x) + 1)
   /\ (x <= 0 -> x <= inject_Z (int_of_double x)
                /\ inject_Z (int_of_double x) - 1 < x))%Q.
Proof.
  destruct x as [n d]. unfold int_of_double. simpl.
  pose proof (Z.quot_rem' n (Z.pos d)) as Hqr.
  split; intros Hx; unfold Qle in Hx; simpl in Hx;
    rewrite ?Z.mul_1_r, ?Z.mul_0_l in Hx.
  - pose proof (Z.rem_bound_pos n (Z.pos d) Hx ltac:(lia)) as Hr.
    split; [unfold Qle | unfold Qlt]; simpl; nia.
  - pose proof (Z.rem_bound_pos_neg n (Z.pos d) ltac:(lia) Hx) as Hr.
    split; [unfold Qle | unfold Qlt]; simpl; nia.
Qed.

(** ** What a call leaves alone *)

Lemma contents_fprintf (log : FILE) (line : LogLine) (w : World) :
  contents log (fprintf log line w) = contents log w ++ [render line].
Proof.
  destruct log as [|path]; simpl; [reflexivity|].
  rewrite lookup_insert_eq. reflexivity.
Qed.

Lemma contents_PR_Sleep (log : FILE) (ticks : Z) (w : World) :
  contents log (PR_Sleep ticks w) = contents log w.
Proof. destruct log; reflexivity. Qed.

Lemma contents_sleep_step (log : FILE) (next_sleep : Z) (t : Turn) (w : World) :
  contents log (sleep_step next_sleep t w) = contents log w.
Proof.
  unfold sleep_step.
  destruct (negb (next_sleep =? 0) && negb (exit_before_sleep t));
    [apply contents_PR_Sleep | reflexivity].
Qed.

Lemma contents_loop_body logTracing log threshold interval (t : Turn) (w : World) :
  contents log (loop_body logTracing log threshold interval t w)
  = contents log w
    ++ match sample_of logTracing threshold t with
       | Some line => [render line]
       | None => []
       end.
Proof.
  unfold loop_body, probe_step, sample_of.
  destruct (probe t) as [duration|].
  - destruct (logTracing && Qgtb (ToMilliseconds duration) (inject_Z threshold));
      destruct (Qgtb (inject_Z interval) (ToMilliseconds duration));
      rewrite contents_sleep_step, ?contents_fprintf, ?app_nil_r; reflexivity.
  - rewrite contents_sleep_step, app_nil_r. reflexivity.
Qed.

Lemma sample_of_is_sample logTracing threshold (t : Turn) (line : LogLine) :
  sample_of logTracing threshold t = Some line -> is_sample line = true.
Proof.
  unfold sample_of. destruct (probe t) as [duration|]; [|discriminate].
  destruct (logTracing && _); [|discriminate].
  intros [= <-]. reflexivity.
Qed.

Lemma contents_tracer_loop logTracing log threshold interval
    (ts : list Turn) (w : World) :
  contents log (tracer_loop logTracing log threshold interval ts w)
  = contents log w ++ map render (omap (sample_of logTracing threshold) ts).
Proof.
  revert w. induction ts as [|t ts IH]; intros w; simpl.
  - rewrite app_nil_r. reflexivity.
  - rewrite IH, contents_loop_body.
    destruct (sample_of logTracing threshold t); simpl;
      rewrite <- ?app_assoc; reflexivity.
Qed.

Lemma omap_sample_of_Forall logTracing threshold (ts : list Turn) :
  Forall (fun l => is_sample l = true) (omap (sample_of logTracing threshold) ts).
Proof.
  induction ts as [|t ts IH]; simpl; [constructor|].
  destruct (sample_of logTracing threshold t) eqn:E; [|exact IH].
  constructor; [eapply sample_of_is_sample; exact E | exact IH].
Qed.

Lemma omap_sample_of_quiet threshold (ts : list Turn) :
  omap (sample_of false threshold) ts = [].
Proof.
  induction ts as [|t ts IH]; simpl; [reflexivity|].
  unfold sample_of at 1. destruct (probe t); simpl; exact IH.
Qed.

(** ** The loop body *)

(** C1.  In a turn of the loop whose probe completes, one sample line is
    appended to the log when logging is enabled and the measured duration is
    strictly above the threshold, and nothing is appended otherwise. *)
Theorem sample_logged_iff_above_threshold
    (logTracing : bool) (log : FILE) (threshold interval : Z)
    (t : Turn) (d : TimeDuration) (w : World) :
  probe t = Some d ->
  let w' := loop_body logTracing log threshold interval t w in
  ((logTracing = true /\ (inject_Z threshold < ToMilliseconds d)%Q) ->
     contents log w'
     = contents log w
       ++ [render (TraceSample (Z.quot (sample_now t) PR_USEC_PER_MSEC)
                     (int_of_double (ToSecondsSigDigits_x1000 d)))])
  /\ (~ (logTracing = true /\ (inject_Z threshold < ToMilliseconds d)%Q) ->
     contents log w' = contents log w).
Proof.
  intros Hp w'. subst w'. rewrite contents_loop_body.
  unfold sample_of. rewrite Hp.
  destruct (Qgtb (ToMilliseconds d) (inject_Z threshold)) eqn:Hgt.
  - apply Qgtb_lt in Hgt. destruct logTracing; cbn [andb].
    + split; [intros _; reflexivity|].
      intros Hn. exfalso. apply Hn. split; [reflexivity | exact Hgt].
    + split; [intros [Hf _]; discriminate | intros _; apply app_nil_r].
  - apply Qgtb_le in Hgt. rewrite andb_false_r.
    split; [|intros _; apply app_nil_r].
    intros [_ Hlt]. exfalso. exact (Qlt_not_le _ _ Hlt Hgt).
Qed.

(** C2, as the loop computes it.  In a turn whose probe completes after a
    duration [d >= 0] (below 2^31 ms), the next sleep is the interval less
    the whole milliseconds of [d], and zero when that is not positive: the
    fraction of a millisecond in [d] is dropped.  When [d] is a whole number
    of milliseconds it is [max(0, interval - d)]. *)
Theorem next_sleep_drops_fraction
    (logTracing : bool) (log : FILE) (threshold interval : Z)
    (t : Turn) (d : TimeDuration) (w : World) :
  probe t = Some d ->
  0 <= interval < UINT32_MOD ->
  (0 <= ToMilliseconds d)%Q ->
  (ToMilliseconds d < inject_Z (INT_MAX + 1))%Q ->
  let next_sleep := fst (probe_step logTracing log threshold interval t w) in
  next_sleep = Z.max 0 (interval - Qfloor (ToMilliseconds d))
  /\ (forall n : Z, (ToMilliseconds d == inject_Z n)%Q ->
        next_sleep = Z.max 0 (interval - n)).
Proof.
  intros Hp Hi Hd0 _ next_sleep.
  assert (Hfloor : next_sleep = Z.max 0 (interval - Qfloor (ToMilliseconds d))).
  { subst next_sleep. unfold probe_step. rewrite Hp.
    assert (H0 : 0 <= Qfloor (ToMilliseconds d)).
    { rewrite <- (Qfloor_Z 0). apply Qfloor_resp_le. exact Hd0. }
    destruct (Qgtb (inject_Z interval) (ToMilliseconds d)) eqn:Hgt; simpl.
    - apply Qgtb_lt in Hgt.
      assert (Hlt : Qfloor (ToMilliseconds d) < interval).
      { rewrite Zlt_Qlt. eapply Qle_lt_trans; [apply Qfloor_le | exact Hgt]. }
      rewrite int_of_double_nonneg_floor by exact Hd0.
      rewrite to_uint32_small by lia. lia.
    - apply Qgtb_le in Hgt.
      assert (Hle : interval <= Qfloor (ToMilliseconds d)).
      { rewrite <- (Qfloor_Z interval). apply Qfloor_resp_le. exact Hgt. }
      lia. }
  split; [exact Hfloor|].
  intros n Hn. rewrite Hfloor, (Qfloor_comp _ _ Hn), Qfloor_Z. reflexivity.
Qed.

(** C8.  In a turn whose probe is interrupted nothing is printed, the next
    sleep is the whole interval, and the turn goes on to the test before the
    sleep: it sleeps the interval when that is not zero and [sExit] is still
    false, and does nothing more otherwise. *)
Theorem interrupted_probe_keeps_interval
    (logTracing : bool) (log : FILE) (threshold interval : Z)
    (t : Turn) (w : World) :
  probe t = None ->
  let w' := loop_body logTracing log threshold interval t w in
  probe_step logTracing log threshold interval t w = (interval, w)
  /\ w' = sleep_step interval t w
  /\ files w' = files w /\ console w' = console w
  /\ sleeps w' = sleeps w
               ++ (if negb (interval =? 0) && negb (exit_before_sleep t)
                   then [interval] else []).
Proof.
  intros Hp w'. subst w'. unfold loop_body, probe_step. rewrite Hp.
  unfold sleep_step.
  destruct (negb (interval =? 0) && negb (exit_before_sleep t)); simpl;
    rewrite ?app_nil_r; repeat split; reflexivity.
Qed.

Lemma int_of_double_in_int (x : Q) :
  (inject_Z INT_MIN - 1 < x)%Q -> (x < inject_Z INT_MAX + 1)%Q ->
  INT_MIN <= int_of_double x <= INT_MAX.
Proof.
  intros Hlo Hhi.
  destruct (int_of_double_toward_zero x) as [Hpos Hneg].
  set (n := int_of_double x) in *.
  assert (H : (inject_Z INT_MIN - 1 < inject_Z n
               /\ inject_Z n < inject_Z INT_MAX + 1)%Q).
  { assert (Hmin : (inject_Z INT_MIN <= 0)%Q) by discriminate.
    assert (Hmax : (0 <= inject_Z INT_MAX)%Q) by discriminate.
    destruct (Qlt_le_dec x 0) as [Hx|Hx].
    - destruct (Hneg (Qlt_le_weak _ _ Hx)) as [H1 H2]. split; lra.
    - destruct (Hpos Hx) as [H1 H2]. split; lra. }
  destruct H as [Ha Hb]. unfold Qlt, INT_MIN, INT_MAX in *.
  cbn in Ha, Hb. lia.
Qed.

(** C9, as the code prints the duration.  The number in a sample line is
    the double [ToSecondsSigDigits() * 1000] with its fractional part
    discarded by the [int] cast: truncated toward zero, not rounded to the
    nearest millisecond, and an [int] when the double is within the range of
    the cast.  When that double is not negative and within [eps]
    milliseconds of the measured [ToMilliseconds()], the number printed is
    at most [eps] above the measured duration and less than [1 + eps]
    below it. *)
Theorem sample_duration_truncated
    (log : FILE) (threshold interval : Z)
    (t : Turn) (d : TimeDuration) (w : World) :
  probe t = Some d ->
  (inject_Z threshold < ToMilliseconds d)%Q ->
  let x := ToSecondsSigDigits_x1000 d in
  (inject_Z INT_MIN - 1 < x)%Q ->
  (x < inject_Z INT_MAX + 1)%Q ->
  exists n : Z,
    contents log (loop_body true log threshold interval t w)
    = contents log w
      ++ [render (TraceSample (Z.quot (sample_now t) PR_USEC_PER_MSEC) n)]
    /\ n = int_of_double x
    /\ INT_MIN <= n <= INT_MAX
    /\ ((0 <= x -> inject_Z n <= x /\ x < inject_Z n + 1)
        /\ (x <= 0 -> x <= inject_Z n /\ inject_Z n - 1 < x))%Q
    /\ (forall eps : Q,
          (0 <= x)%Q ->
          (Qabs (x - ToMilliseconds d) <= eps)%Q ->
          (ToMilliseconds d - 1 - eps < inject_Z n
           /\ inject_Z n <= ToMilliseconds d + eps)%Q).
Proof.
  intros Hp Hgt x Hlo Hhi. exists (int_of_double x).
  split; [|split; [reflexivity|split; [|split]]].
  - rewrite contents_loop_body. unfold sample_of. rewrite Hp.
    apply Qgtb_lt in Hgt. rewrite Hgt. reflexivity.
  - apply int_of_double_in_int; assumption.
  - apply int_of_double_toward_zero.
  - intros eps Hx Heps.
    destruct (int_of_double_toward_zero x) as [Hpos _].
    destruct (Hpos Hx) as [H1 H2].
    apply Qabs_Qle_condition in Heps as [He1 He2].
    split; lra.
Qed.

(** ** The overrides from the environment *)

Section Overrides.

Variable PR_MillisecondsToInterval : Z -> Z.


Lemma override_taken (text : string) (current : Z) :
  atoi text <> 0 -> atoi text <> INT_MAX -> atoi text <> INT_MIN ->
  override PR_MillisecondsToInterval (Some text) current
  = PR_MillisecondsToInterval (to_uint32 (atoi text)).
Proof.
  intros H0 Hmax Hmin. unfold override.
  destruct text as [|c r]; [exfalso; apply H0; reflexivity|].
  destruct (Z.eqb_spec (atoi (String c r)) 0); [contradiction|].
  destruct (Z.eqb_spec (atoi (String c r)) INT_MAX); [contradiction|].
  destruct (Z.eqb_spec (atoi (String c r)) INT_MIN); [contradiction|].
  reflexivity.
Qed.

Lemma override_not_taken (text : string) (current : Z) :
  text = "" \/ atoi text = 0 \/ atoi text = INT_MAX \/ atoi text = INT_MIN ->
  override PR_MillisecondsToInterval (Some text) current = current.
Proof.
  intros H. unfold override.
  destruct text as [|c r]; [reflexivity|].
  destruct H as [H|[H|[H|H]]]; [discriminate| | |]; rewrite H;
    reflexivity.
Qed.

Lemma atoi_inner (text : string) :
  INT_MIN < parsed_value text < INT_MAX -> atoi text = parsed_value text.
Proof. intros H. apply saturate_id. lia. Qed.

Lemma atoi_outer (text : string) :
  (INT_MAX <= parsed_value text -> atoi text = INT_MAX)
  /\ (parsed_value text <= INT_MIN -> atoi text = INT_MIN).
Proof.
  unfold atoi, saturate, INT_MAX, INT_MIN.
  destruct (Z.ltb_spec (parsed_value text) (-2147483648));
    destruct (Z.ltb_spec 2147483647 (parsed_value text)); lia.
Qed.

(** C4, as the code resolves an override.  A text that denotes a nonzero
    integer strictly between [INT_MIN] and [INT_MAX] gives the threshold and
    the interval that value, taken as a [PRUint32] number of milliseconds
    (the value itself when it is positive).  An absent or empty override,
    one that denotes zero or has no leading integer, and one that denotes
    [INT_MAX] or [INT_MIN] itself leave the threshold at 20 ms and the
    interval at 10 ms.  Nothing is said of a text whose value does not fit
    an [int], on which the result of [atoi] is not defined. *)
Theorem override_resolution (env : option string) :
  (forall text : string,
      env = Some text ->
      parsed_value text <> 0 ->
      INT_MIN < parsed_value text < INT_MAX ->
      resolve_threshold PR_MillisecondsToInterval env
      = PR_MillisecondsToInterval (to_uint32 (parsed_value text))
      /\ resolve_interval PR_MillisecondsToInterval env
         = PR_MillisecondsToInterval (to_uint32 (parsed_value text))
      /\ (0 < parsed_value text ->
          to_uint32 (parsed_value text) = parsed_value text))
  /\ (env = None
      \/ (exists text : string,
             env = Some text
             /\ (text = "" \/ parsed_value text = 0
                 \/ parsed_value text = INT_MAX
                 \/ parsed_value text = INT_MIN)) ->
      resolve_threshold PR_MillisecondsToInterval env
      = PR_MillisecondsToInterval 20
      /\ resolve_interval PR_MillisecondsToInterval env
         = PR_MillisecondsToInterval 10).
Proof.
  split.
  - intros text -> Hnz Hin.
    pose proof (atoi_inner text Hin) as Ha.
    unfold resolve_threshold, resolve_interval.
    rewrite !override_taken by (rewrite Ha; lia).
    rewrite Ha. repeat split.
    intros Hpos. apply to_uint32_small. unfold UINT32_MOD, INT_MAX in *. lia.
  - intros [->|(text & -> & H)]; [split; reflexivity|].
    unfold resolve_threshold, resolve_interval.
    assert (Hfits : text = "" \/ atoi text = parsed_value text).
    { destruct H as [H|[H|[H|H]]]; [left; exact H | right ..];
        apply saturate_id; rewrite H; unfold INT_MIN, INT_MAX; lia. }
    rewrite !override_not_taken; [split; reflexivity | |].
    all: destruct Hfits as [He|Ha]; [left; exact He | right; rewrite Ha].
    all: destruct H as [H|[H|[H|H]]]; [|tauto ..].
    all: subst text; left; reflexivity.
Qed.

(** C10.  A text that [atoi] reads as a negative number other than
    [INT_MIN] is not turned away: the threshold and the interval become that
    number, passed through [PRUint32] to [PR_MillisecondsToInterval], and
    not the default. *)
Theorem negative_override_accepted (text : string) :
  atoi text < 0 ->
  atoi text <> INT_MIN ->
  resolve_threshold PR_MillisecondsToInterval (Some text)
  = PR_MillisecondsToInterval (to_uint32 (atoi text))
  /\ resolve_interval PR_MillisecondsToInterval (Some text)
     = PR_MillisecondsToInterval (to_uint32 (atoi text))
  /\ to_uint32 (atoi text) = atoi text + UINT32_MOD
  /\ atoi text = parsed_value text.
Proof.
  intros Hneg Hmin.
  assert (Hmax : atoi text <> INT_MAX) by (unfold INT_MAX; lia).
  unfold resolve_threshold, resolve_interval.
  rewrite !override_taken by (try assumption; lia).
  repeat split.
  - pose proof (atoi_range text) as Hr. unfold to_uint32, UINT32_MOD, INT_MIN in *.
    symmetry. apply (Z.mod_unique_pos _ _ (-1)); lia.
  - destruct (atoi_outer text) as [Hhi Hlo]. unfold atoi in *.
    apply saturate_id. unfold saturate in *.
    destruct (Z.ltb_spec (parsed_value text) INT_MIN); [congruence|].
    destruct (Z.ltb_spec INT_MAX (parsed_value text));
      [unfold INT_MAX in *; lia|].
    lia.
Qed.

End Overrides.

(** ** A run of the tracer thread *)

Lemma files_loop_body_quiet log threshold interval (t : Turn) (w : World) :
  files (loop_body false log threshold interval t w) = files w
  /\ console (loop_body false log threshold interval t w) = console w.
Proof.
  unfold loop_body, probe_step, sleep_step.
  destruct (probe t) as [d|]; simpl;
    repeat match goal with |- context [if ?b then _ else _] => destruct b end;
    simpl; split; reflexivity.
Qed.

Lemma files_tracer_loop_quiet log threshold interval (ts : list Turn) (w : World) :
  files (tracer_loop false log threshold interval ts w) = files w
  /\ console (tracer_loop false log threshold interval ts w) = console w.
Proof.
  revert w. induction ts as [|t ts IH]; intros w; simpl; [split; reflexivity|].
  destruct (IH (loop_body false log threshold interval t w)) as [-> ->].
  apply files_loop_body_quiet.
Qed.

Lemma threads_loop_body logTracing log threshold interval (t : Turn) (w : World) :
  threads (loop_body logTracing log threshold interval t w) = threads w
  /\ sTracerThread (loop_body logTracing log threshold interval t w)
     = sTracerThread w
  /\ widget_tracing (loop_body logTracing log threshold interval t w)
     = widget_tracing w.
Proof.
  unfold loop_body, probe_step, sleep_step, fprintf.
  destruct (probe t) as [d|]; simpl;
    repeat match goal with |- context [if ?b then _ else _] => destruct b end;
    destruct log; simpl; repeat split; reflexivity.
Qed.

Lemma threads_tracer_loop logTracing log threshold interval
    (ts : list Turn) (w : World) :
  threads (tracer_loop logTracing log threshold interval ts w) = threads w
  /\ sTracerThread (tracer_loop logTracing log threshold interval ts w)
     = sTracerThread w
  /\ widget_tracing (tracer_loop logTracing log threshold interval ts w)
     = widget_tracing w.
Proof.
  revert w. induction ts as [|t ts IH]; intros w; simpl;
    [repeat split; reflexivity|].
  destruct (IH (loop_body logTracing log threshold interval t w))
    as (-> & -> & ->).
  apply threads_loop_body.
Qed.

Section Lifecycle.

Variable PR_MillisecondsToInterval : Z -> Z.


Lemma contents_fclose (log log' : FILE) (w : World) :
  contents log (fclose log' w) = contents log w.
Proof. destruct log, log'; reflexivity. Qed.

Lemma contents_set_sExit (log : FILE) (b : bool) (w : World) :
  contents log (set_sExit b w) = contents log w.
Proof. destruct log; reflexivity. Qed.

Lemma contents_opened (path : string) (w : World) :
  contents (stream path)
    (set_open_streams ({[path]} ∪ open_streams w)
       (set_files (<[path := []]> (files w)) w)) = [].
Proof. unfold contents. simpl. rewrite lookup_insert_eq. reflexivity. Qed.

Lemma TracerThread_log (args : TracerStartClosure) (r : Run) (w : World) :
  contents (log_of w) (TracerThread PR_MillisecondsToInterval args r w)
  = log_before w
    ++ (if mLogTracing args
        then map render
               (run_lines
                  (resolve_threshold PR_MillisecondsToInterval
                     (PR_GetEnv "MOZ_INSTRUMENT_EVENT_LOOP_THRESHOLD" w)) r)
        else []).
Proof.
  unfold log_before, log_of, TracerThread, open_log, fopen_w, PR_GetEnv,
    run_lines.
  cbn [environ unwritable set_sExit].
  destruct (environ w !! "MOZ_INSTRUMENT_EVENT_LOOP_OUTPUT") as [envfile|];
    [destruct (decide (envfile ∈ unwritable w))|]; cbn [fst snd];
    destruct (mLogTracing args);
    cbn [environ set_open_streams set_files];
    rewrite ?contents_fclose, ?contents_fprintf, ?contents_tracer_loop,
      ?contents_fprintf, ?contents_opened, ?contents_set_sExit,
      ?omap_sample_of_quiet;
    cbn [environ set_sExit map app];
    rewrite ?app_nil_r, ?map_app, <- ?app_assoc; reflexivity.
Qed.

Lemma TracerThread_frame (args : TracerStartClosure) (r : Run) (w : World) :
  threads (TracerThread PR_MillisecondsToInterval args r w) = threads w
  /\ sTracerThread (TracerThread PR_MillisecondsToInterval args r w)
     = sTracerThread w
  /\ widget_tracing (TracerThread PR_MillisecondsToInterval args r w)
     = widget_tracing w.
Proof.
  unfold TracerThread, open_log, fopen_w, PR_GetEnv.
  cbn [environ unwritable set_sExit].
  destruct (environ w !! "MOZ_INSTRUMENT_EVENT_LOOP_OUTPUT") as [envfile|];
    [destruct (decide (envfile ∈ unwritable w))|]; cbn [fst snd];
    destruct (mLogTracing args); unfold fclose, fprintf; cbn;
    repeat match goal with
      | |- context [tracer_loop ?a ?b ?c ?d ?e ?f] =>
          destruct (threads_tracer_loop a b c d e f) as (-> & -> & ->)
      end;
    repeat split; reflexivity.
Qed.

Lemma TracerThread_quiet (r : Run) (w : World) :
  let w' :=
    TracerThread PR_MillisecondsToInterval {| mLogTracing := false |} r w in
  files w' = files_after_open w /\ console w' = console w.
Proof.
  unfold TracerThread, files_after_open, open_log, fopen_w, PR_GetEnv.
  cbn [environ unwritable set_sExit mLogTracing].
  destruct (environ w !! "MOZ_INSTRUMENT_EVENT_LOOP_OUTPUT") as [envfile|];
    [destruct (decide (envfile ∈ unwritable w))|]; cbn [fst snd];
    unfold fclose; cbn;
    repeat match goal with
      | |- context [tracer_loop false ?b ?c ?d ?e ?f] =>
          destruct (files_tracer_loop_quiet b c d e f) as [-> ->]
      end;
    split; reflexivity.
Qed.

Lemma log_of_ext (w w' : World) :
  environ w = environ w' -> unwritable w = unwritable w' ->
  log_of w = log_of w'.
Proof.
  intros He Hu. unfold log_of, open_log, fopen_w, PR_GetEnv. rewrite He, Hu.
  destruct (environ w' !! "MOZ_INSTRUMENT_EVENT_LOOP_OUTPUT") as [envfile|];
    [|reflexivity].
  destruct (decide (envfile ∈ unwritable w')); reflexivity.
Qed.

Lemma log_before_ext (w w' : World) :
  environ w = environ w' -> unwritable w = unwritable w' ->
  console w = console w' ->
  log_before w = log_before w'.
Proof.
  intros He Hu Hc. unfold log_before.
  rewrite (log_of_ext w w' He Hu), Hc. reflexivity.
Qed.

Lemma files_after_open_ext (w w' : World) :
  environ w = environ w' -> unwritable w = unwritable w' ->
  files w = files w' ->
  files_after_open w = files_after_open w'.
Proof.
  intros He Hu Hf. unfold files_after_open, PR_GetEnv.
  rewrite He, Hu, Hf. reflexivity.
Qed.

(** A start that succeeds from rest, followed by a stop: the state after
    the stop is the state after the run of the new thread, with the handle,
    the thread and the widget backend cleared. *)
Lemma start_then_stop (aLog widget_ok spawned : bool) (r : Run) (w w1 : World) :
  sTracerThread w = None ->
  InitEventTracing aLog widget_ok spawned w = (true, w1) ->
  exists h : nat,
    ShutdownEventTracing PR_MillisecondsToInterval r w1
    = set_widget_tracing false
        (set_sTracerThread None
           (set_threads (delete h (threads w1))
              (set_sExit true
                 (TracerThread PR_MillisecondsToInterval
                    {| mLogTracing := aLog |} r w1))))
    /\ environ w1 = environ w /\ unwritable w1 = unwritable w
    /\ files w1 = files w /\ console w1 = console w.
Proof.
  intros Hnone Hinit. unfold InitEventTracing in Hinit. rewrite Hnone in Hinit.
  destruct widget_ok; [|discriminate]. destruct spawned; [|discriminate].
  cbn in Hinit. injection Hinit as <-.
  exists (fresh (dom (threads w))).
  unfold ShutdownEventTracing. cbn [sTracerThread set_sTracerThread
    threads set_threads set_widget_tracing].
  rewrite lookup_insert_eq. repeat split; reflexivity.
Qed.

Lemma contents_after_stop (log : FILE) (t : gmap nat TracerStartClosure)
    (w : World) :
  contents log
    (set_widget_tracing false
       (set_sTracerThread None (set_threads t (set_sExit true w))))
  = contents log w.
Proof. destruct log; reflexivity. Qed.

(** Lines of different kinds never print alike. *)
Lemma render_kind (a b : LogLine) :
  render a = render b ->
  is_start a = is_start b /\ is_sample a = is_sample b
  /\ is_stop a = is_stop b.
Proof.
  destruct a, b; simpl; intros H; try (repeat split; reflexivity);
    exfalso; discriminate H.
Qed.

Lemma filter_samples (P : LogLine -> Prop) `{!forall l, Decision (P l)}
    (samples : list LogLine) :
  (forall l, is_sample l = true -> ~ P l) ->
  Forall (fun l => is_sample l = true) samples ->
  filter P samples = [].
Proof.
  intros HP Hs. induction Hs as [|x l Hx _ IH]; [reflexivity|].
  rewrite filter_cons_False; [exact IH | apply HP; exact Hx].
Qed.

(** The shape of the log of one run: where the start line, the samples and
    the stop line are. *)
Lemma run_lines_shape (t0 t1 : Z) (samples : list LogLine) :
  Forall (fun l => is_sample l = true) samples ->
  let lines := TraceStart t0 :: samples ++ [TraceStop t1] in
  length (filter (fun l => is_start l = true) lines) = 1%nat
  /\ length (filter (fun l => is_stop l = true) lines) = 1%nat
  /\ (forall (i j : nat) (a b : LogLine),
        lines !! i = Some a -> lines !! j = Some b ->
        is_start a = true -> is_sample b = true -> (i < j)%nat)
  /\ (forall (i j : nat) (a b : LogLine),
        lines !! i = Some a -> lines !! j = Some b ->
        is_sample a = true -> is_stop b = true -> (i < j)%nat).
Proof.
  intros Hs lines.
  assert (Hno_start : filter (fun l => is_start l = true) samples = []).
  { apply filter_samples; [|exact Hs]. intros [] ?; simpl in *; congruence. }
  assert (Hno_stop : filter (fun l => is_stop l = true) samples = []).
  { apply filter_samples; [|exact Hs]. intros [] ?; simpl in *; congruence. }
  assert (Hin : forall k x, samples !! k = Some x -> is_sample x = true).
  { intros k x Hk. rewrite Forall_lookup in Hs. exact (Hs k x Hk). }
  assert (Htail : forall k x, (samples ++ [TraceStop t1]) !! k = Some x ->
            (is_sample x = true /\ (k < length samples)%nat)
            \/ (x = TraceStop t1 /\ k = length samples)).
  { intros k x Hk. apply lookup_app_Some in Hk as [Hk|[Hlen Hk]].
    - left. split; [eapply Hin; exact Hk | eapply lookup_lt_Some; exact Hk].
    - right. apply list_lookup_singleton_Some in Hk as [Hk <-].
      split; [reflexivity | lia]. }
  subst lines. repeat split.
  - rewrite filter_cons_True by reflexivity. rewrite filter_app, Hno_start.
    reflexivity.
  - rewrite filter_cons_False by (simpl; congruence).
    rewrite filter_app, Hno_stop. reflexivity.
  - intros i j a b Hi Hj Ha Hb.
    destruct i as [|i].
    + destruct j as [|j]; [|lia]. simpl in Hj. injection Hj as <-. discriminate.
    + simpl in Hi. apply Htail in Hi as [[Hi _]|[-> _]];
        [destruct a; discriminate | discriminate].
  - intros i j a b Hi Hj Ha Hb.
    destruct j as [|j]; [simpl in Hj; injection Hj as <-; discriminate|].
    simpl in Hj. apply Htail in Hj as [[Hj _]|[_ ->]];
      [destruct b; discriminate|].
    destruct i as [|i]; [simpl in Hi; injection Hi as <-; discriminate|].
    simpl in Hi. apply Htail in Hi as [[_ Hi]|[-> _]]; [lia | discriminate].
Qed.

(** C7.  One start/stop cycle with logging enabled appends to the log a
    start line, then sample lines only, then a stop line: there is exactly
    one start line and it comes before every sample line, and exactly one
    stop line and it comes after every sample line. *)
Theorem one_start_line_samples_one_stop_line
    (widget_ok spawned : bool) (r : Run) (w w1 : World) :
  sTracerThread w = None ->
  InitEventTracing true widget_ok spawned w = (true, w1) ->
  let w2 := ShutdownEventTracing PR_MillisecondsToInterval r w1 in
  exists (t0 t1 : Z) (samples : list LogLine),
    let lines := TraceStart t0 :: samples ++ [TraceStop t1] in
    contents (log_of w) w2 = log_before w ++ map render lines
    /\ Forall (fun l => is_sample l = true) samples
    /\ length (filter (fun l => is_start l = true) lines) = 1%nat
    /\ length (filter (fun l => is_stop l = true) lines) = 1%nat
    /\ (forall (i j : nat) (a b : LogLine),
          lines !! i = Some a -> lines !! j = Some b ->
          is_start a = true -> is_sample b = true -> (i < j)%nat)
    /\ (forall (i j : nat) (a b : LogLine),
          lines !! i = Some a -> lines !! j = Some b ->
          is_sample a = true -> is_stop b = true -> (i < j)%nat).
Proof.
  intros Hnone Hinit w2.
  destruct (start_then_stop true widget_ok spawned r w w1 Hnone Hinit)
    as (h & Hstop & He & Hu & Hf & Hc).
  set (threshold :=
         resolve_threshold PR_MillisecondsToInterval
           (PR_GetEnv "MOZ_INSTRUMENT_EVENT_LOOP_THRESHOLD" w1)).
  exists (Z.quot (start_now r) PR_USEC_PER_MSEC),
         (Z.quot (stop_now r) PR_USEC_PER_MSEC),
         (omap (sample_of true threshold) (turns r)).
  pose proof (omap_sample_of_Forall true threshold (turns r)) as Hs.
  split; [|split; [exact Hs | apply run_lines_shape; exact Hs]].
  subst w2. rewrite Hstop, contents_after_stop.
  rewrite <- (log_of_ext w1 w He Hu), <- (log_before_ext w1 w He Hu Hc).
  rewrite TracerThread_log. reflexivity.
Qed.

(** C5, on the path where the thread cannot be created.  [InitEventTracing]
    returns false and leaves no thread and a null handle, but the widget
    backend that it has just initialised stays initialised, and a later
    [ShutdownEventTracing] returns at once without cleaning it up. *)
Theorem failed_spawn_leaves_widget_tracing (aLog : bool) (w : World) :
  sTracerThread w = None ->
  let w1 := snd (InitEventTracing aLog true false w) in
  fst (InitEventTracing aLog true false w) = false
  /\ sTracerThread w1 = None
  /\ threads w1 = threads w
  /\ widget_tracing w1 = true
  /\ (forall r : Run, ShutdownEventTracing PR_MillisecondsToInterval r w1 = w1).
Proof.
  intros Hnone w1. subst w1. unfold InitEventTracing. rewrite Hnone. cbn.
  repeat split.
Qed.

Lemma tracked_start (aLog widget_ok spawned : bool) (w : World) :
  tracked w -> tracked (snd (InitEventTracing aLog widget_ok spawned w)).
Proof.
  unfold tracked, InitEventTracing. intros Ht.
  destruct (sTracerThread w) as [h|] eqn:Hh; [cbn; rewrite Hh; exact Ht|].
  destruct widget_ok; cbn; [|rewrite Hh; exact Ht].
  destruct spawned; cbn; [|exact Ht].
  exists {| mLogTracing := aLog |}. rewrite Ht. apply insert_empty.
Qed.

Lemma tracked_stop (r : Run) (w : World) :
  tracked w -> tracked (ShutdownEventTracing PR_MillisecondsToInterval r w).
Proof.
  unfold tracked, ShutdownEventTracing. intros Ht.
  destruct (sTracerThread w) as [h|] eqn:Hh; [|rewrite Hh; exact Ht].
  destruct Ht as [args Ht]. rewrite Ht, lookup_singleton_eq. cbn.
  apply delete_singleton_eq.
Qed.

Lemma tracked_calls (cs : list Call) (w : World) :
  tracked w -> tracked (calls PR_MillisecondsToInterval cs w).
Proof.
  unfold calls. revert w. induction cs as [|c cs IH]; intros w Ht; [exact Ht|].
  simpl. apply IH. destruct c as [aLog widget_ok spawned|r]; simpl.
  - apply tracked_start. exact Ht.
  - apply tracked_stop. exact Ht.
Qed.

Lemma tracked_at_most_one (w : World) : tracked w -> (size (threads w) <= 1)%nat.
Proof.
  unfold tracked. destruct (sTracerThread w) as [h|].
  - intros [args ->]. rewrite map_size_singleton. lia.
  - intros ->. rewrite map_size_empty. lia.
Qed.

(** C6.  A start made while the handle names a running tracer returns true
    and changes nothing, so no second thread is created; and whatever
    starts and stops the program makes, from a state where the handle and
    the thread table agree, there is never more than one tracer thread. *)
Theorem second_start_is_a_no_op (w : World) :
  tracked w ->
  (forall (aLog widget_ok spawned : bool) (h : nat),
      sTracerThread w = Some h ->
      InitEventTracing aLog widget_ok spawned w = (true, w))
  /\ (forall cs : list Call,
        (size (threads (calls PR_MillisecondsToInterval cs w)) <= 1)%nat).
Proof.
  intros Ht. split.
  - intros aLog widget_ok spawned h Hh. unfold InitEventTracing.
    rewrite Hh. reflexivity.
  - intros cs. apply tracked_at_most_one, tracked_calls. exact Ht.
Qed.

End Lifecycle.

(** ** The statements at concrete inputs *)

(** A probe of 35.7 ms against a threshold of 20 is logged, as 35. *)
Lemma sample_logged_iff_above_threshold_witness :
  probe (completed (357 # 10) 3000000) = Some (millis (357 # 10))
  /\ contents stdout
       (loop_body true stdout 20 10 (completed (357 # 10) 3000000) quiet_world)
     = contents stdout quiet_world ++ [render (TraceSample 3000 35)].
Proof.
  split; [reflexivity|].
  apply (sample_logged_iff_above_threshold true stdout 20 10
           (completed (357 # 10) 3000000) (millis (357 # 10)) quiet_world
           eq_refl).
  split; reflexivity.
Defined.

(** C2 as written fails: with an interval of 10 and a probe of 5.5 ms the
    loop sleeps 5, which is not [max(0, 10 - 5.5)]. *)
Lemma next_sleep_fraction_counterexample :
  fst (probe_step false stdout 20 10 (completed (11 # 2) 0) quiet_world) = 5
  /\ ~ (inject_Z 5 == Qmax 0 (inject_Z 10 - (11 # 2)))%Q.
Proof. split; [reflexivity|]. vm_compute. discriminate. Qed.

Lemma next_sleep_drops_fraction_witness :
  probe (completed (11 # 2) 0) = Some (millis (11 # 2))
  /\ 0 <= 10 < UINT32_MOD
  /\ (0 <= ToMilliseconds (millis (11 # 2)))%Q
  /\ (ToMilliseconds (millis (11 # 2)) < inject_Z (INT_MAX + 1))%Q
  /\ fst (probe_step false stdout 20 10 (completed (11 # 2) 0) quiet_world)
     = Z.max 0 (10 - Qfloor (ToMilliseconds (millis (11 # 2)))).
Proof.
  assert (H1 : 0 <= 10 < UINT32_MOD) by (unfold UINT32_MOD; lia).
  assert (H2 : (0 <= ToMilliseconds (millis (11 # 2)))%Q)
    by (unfold Qle; simpl; lia).
  assert (H3 : (ToMilliseconds (millis (11 # 2)) < inject_Z (INT_MAX + 1))%Q)
    by reflexivity.
  split; [reflexivity|]. split; [exact H1|]. split; [exact H2|].
  split; [exact H3|].
  exact (proj1 (next_sleep_drops_fraction false stdout 20 10
                  (completed (11 # 2) 0) (millis (11 # 2)) quiet_world
                  eq_refl H1 H2 H3)).
Defined.

Lemma interrupted_probe_keeps_interval_witness :
  probe interrupted = None
  /\ probe_step true stdout 20 10 interrupted quiet_world = (10, quiet_world).
Proof.
  split; [reflexivity|].
  exact (proj1 (interrupted_probe_keeps_interval true stdout 20 10
                  interrupted quiet_world eq_refl)).
Defined.

(** C9 as written fails: a probe measured at 35.75 ms is printed as 35, and
    35 is not 35.75 rounded: it is more than half a millisecond away. *)
Lemma sample_not_rounded_counterexample :
  contents stdout
    (loop_body true stdout 20 10 (completed (143 # 4) 3000000) quiet_world)
  = contents stdout quiet_world ++ [render (TraceSample 3000 35)]
  /\ ToMilliseconds (millis (143 # 4)) = 143 # 4
  /\ ToSecondsSigDigits_x1000 (millis (143 # 4)) = 143 # 4
  /\ ~ (Qabs ((143 # 4) - inject_Z 35) <= 1 # 2)%Q.
Proof.
  split; [reflexivity | split; [reflexivity | split; [reflexivity|]]].
  vm_compute. intros H. apply H. reflexivity.
Qed.

Lemma sample_duration_truncated_witness :
  probe (completed (143 # 4) 3000000) = Some (millis (143 # 4))
  /\ (inject_Z 20 < ToMilliseconds (millis (143 # 4)))%Q
  /\ (inject_Z INT_MIN - 1 < ToSecondsSigDigits_x1000 (millis (143 # 4)))%Q
  /\ (ToSecondsSigDigits_x1000 (millis (143 # 4)) < inject_Z INT_MAX + 1)%Q
  /\ exists n : Z,
       contents stdout
         (loop_body true stdout 20 10 (completed (143 # 4) 3000000)
            quiet_world)
       = contents stdout quiet_world
         ++ [render (TraceSample (Z.quot 3000000 PR_USEC_PER_MSEC) n)]
       /\ n = int_of_double (143 # 4)
       /\ INT_MIN <= n <= INT_MAX.
Proof.
  assert (H3 : (inject_Z INT_MIN - 1
                < ToSecondsSigDigits_x1000 (millis (143 # 4)))%Q)
    by reflexivity.
  assert (H4 : (ToSecondsSigDigits_x1000 (millis (143 # 4))
                < inject_Z INT_MAX + 1)%Q) by reflexivity.
  split; [reflexivity | split; [reflexivity|]].
  split; [exact H3 | split; [exact H4|]].
  destruct (sample_duration_truncated stdout 20 10
              (completed (143 # 4) 3000000) (millis (143 # 4)) quiet_world
              eq_refl eq_refl H3 H4) as (n & Hc & Hn & Hr & _).
  exists n. split; [exact Hc | split; [exact Hn | exact Hr]].
Defined.

(** C4 as written fails: the text "2147483647" denotes [INT_MAX], which
    fits an [int] and is not zero, and the threshold and the interval stay
    at their defaults, 20 and 10 ticks of a millisecond. *)
Lemma override_INT_MAX_counterexample :
  parsed_value "2147483647" = 2147483647
  /\ 2147483647 <> 0
  /\ INT_MIN <= 2147483647 <= INT_MAX
  /\ resolve_threshold ticks_1kHz (Some "2147483647") = 20
  /\ resolve_interval ticks_1kHz (Some "2147483647") = 10
  /\ resolve_threshold ticks_1kHz (Some "2147483647")
     <> ticks_1kHz 2147483647.
Proof.
  repeat split; try reflexivity; try discriminate;
    vm_compute; discriminate.
Qed.

Lemma override_resolution_witness :
  parsed_value "35" <> 0
  /\ INT_MIN < parsed_value "35" < INT_MAX
  /\ resolve_threshold ticks_1kHz (Some "35")
     = ticks_1kHz (to_uint32 (parsed_value "35")).
Proof.
  assert (H1 : parsed_value "35" <> 0) by discriminate.
  assert (H2 : INT_MIN < parsed_value "35" < INT_MAX) by (split; reflexivity).
  split; [exact H1 | split; [exact H2|]].
  exact (proj1 (proj1 (override_resolution ticks_1kHz (Some "35"))
                  "35" eq_refl H1 H2)).
Defined.

Lemma negative_override_accepted_witness :
  atoi "-5" < 0
  /\ atoi "-5" <> INT_MIN
  /\ resolve_threshold ticks_1kHz (Some "-5")
     = ticks_1kHz (to_uint32 (atoi "-5")).
Proof.
  assert (H1 : atoi "-5" < 0) by reflexivity.
  assert (H2 : atoi "-5" <> INT_MIN) by discriminate.
  split; [exact H1 | split; [exact H2|]].
  exact (proj1 (negative_override_accepted ticks_1kHz "-5" H1 H2)).
Defined.

(** C3 as written fails: started with logging disabled and stopped, the
    thread has emptied the file that the output variable names. *)
Lemma quiet_cycle_truncates_counterexample :
  let w1 := snd (InitEventTracing false true true redirected_world) in
  let w2 := ShutdownEventTracing ticks_1kHz idle_run w1 in
  fst (InitEventTracing false true true redirected_world) = true
  /\ PR_GetEnv "MOZ_INSTRUMENT_EVENT_LOOP_OUTPUT" redirected_world
     = Some "trace.log"
  /\ files redirected_world !! "trace.log" = Some ["earlier contents"]
  /\ files w2 !! "trace.log" = Some []
  /\ files w2 <> files redirected_world.
Proof.
  repeat split; try (vm_compute; reflexivity).
  intros H.
  assert (Hl : files (ShutdownEventTracing ticks_1kHz idle_run
                        (snd (InitEventTracing false true true redirected_world)))
               !! "trace.log"
               = files redirected_world !! "trace.log") by (rewrite H; reflexivity).
  vm_compute in Hl. discriminate.
Qed.

Lemma one_start_line_samples_one_stop_line_witness :
  sTracerThread redirected_world = None
  /\ InitEventTracing true true true redirected_world
     = (true, snd (InitEventTracing true true true redirected_world))
  /\ exists (t0 t1 : Z) (samples : list LogLine),
       contents (log_of redirected_world)
         (ShutdownEventTracing ticks_1kHz short_run
            (snd (InitEventTracing true true true redirected_world)))
       = log_before redirected_world
         ++ map render (TraceStart t0 :: samples ++ [TraceStop t1]).
Proof.
  assert (H1 : sTracerThread redirected_world = None) by reflexivity.
  assert (H2 : InitEventTracing true true true redirected_world
               = (true, snd (InitEventTracing true true true redirected_world)))
    by reflexivity.
  split; [exact H1 | split; [exact H2|]].
  destruct (one_start_line_samples_one_stop_line ticks_1kHz true true short_run
              redirected_world _ H1 H2) as (t0 & t1 & samples & Hc & _).
  exists t0, t1, samples. exact Hc.
Defined.

Lemma failed_spawn_leaves_widget_tracing_witness :
  sTracerThread quiet_world = None
  /\ fst (InitEventTracing true true false quiet_world) = false
  /\ widget_tracing (snd (InitEventTracing true true false quiet_world)) = true.
Proof.
  assert (H1 : sTracerThread quiet_world = None) by reflexivity.
  split; [exact H1|].
  pose proof (failed_spawn_leaves_widget_tracing ticks_1kHz true quiet_world H1)
    as (Hf & _ & _ & Hw & _).
  split; [exact Hf | exact Hw].
Defined.

Lemma second_start_is_a_no_op_witness :
  tracked quiet_world
  /\ (size (threads
        (calls ticks_1kHz
           [CallStart true true true; CallStart false true true;
            CallStop short_run; CallStart true true true]
           quiet_world)) <= 1)%nat.
Proof.
  assert (H1 : tracked quiet_world) by reflexivity.
  split; [exact H1|].
  exact (proj2 (second_start_is_a_no_op ticks_1kHz quiet_world H1) _).
Defined.

(** ** More on the loop: what it leaves alone, and its sleeps *)

Lemma loop_body_frame logTracing log threshold interval (t : Turn) (w : World) :
  let w' := loop_body logTracing log threshold interval t w in
  environ w' = environ w /\ unwritable w' = unwritable w
  /\ open_streams w' = open_streams w /\ sExit w' = sExit w.
Proof.
  unfold loop_body, probe_step, sleep_step, fprintf.
  destruct (probe t) as [d|]; simpl;
    repeat match goal with |- context [if ?b then _ else _] => destruct b end;
    destruct log; simpl; repeat split; reflexivity.
Qed.

Lemma tracer_loop_frame logTracing log threshold interval
    (ts : list Turn) (w : World) :
  let w' := tracer_loop logTracing log threshold interval ts w in
  environ w' = environ w /\ unwritable w' = unwritable w
  /\ open_streams w' = open_streams w /\ sExit w' = sExit w.
Proof.
  revert w. induction ts as [|t ts IH]; intros w; simpl;
    [repeat split; reflexivity|].
  destruct (IH (loop_body logTracing log threshold interval t w))
    as (-> & -> & -> & ->).
  apply loop_body_frame.
Qed.

Lemma sleeps_loop_body logTracing log threshold interval (t : Turn) (w : World) :
  sleeps (loop_body logTracing log threshold interval t w)
  = sleeps w ++ match sleep_of interval t with
                | Some ticks => [ticks]
                | None => []
                end.
Proof.
  unfold loop_body, probe_step, sleep_step, sleep_of, fprintf, PR_Sleep.
  destruct (probe t) as [d|]; simpl;
    repeat match goal with |- context [if ?b then _ else _] => destruct b end;
    destruct log; simpl; rewrite ?app_nil_r; reflexivity.
Qed.

Lemma sleeps_tracer_loop logTracing log threshold interval
    (ts : list Turn) (w : World) :
  sleeps (tracer_loop logTracing log threshold interval ts w)
  = sleeps w ++ omap (sleep_of interval) ts.
Proof.
  revert w. induction ts as [|t ts IH]; intros w; simpl.
  - rewrite app_nil_r. reflexivity.
  - rewrite IH, sleeps_loop_body.
    destruct (sleep_of interval t); simpl; rewrite <- ?app_assoc; reflexivity.
Qed.

Lemma sleep_of_bound (interval : Z) (t : Turn) (ticks : Z) :
  0 <= interval < UINT32_MOD ->
  (forall d, probe t = Some d -> (0 <= ToMilliseconds d)%Q) ->
  sleep_of interval t = Some ticks ->
  0 < ticks <= interval.
Proof.
  intros Hi Hd. unfold sleep_of.
  destruct (probe t) as [d|].
  - specialize (Hd d eq_refl).
    destruct (Qgtb (inject_Z interval) (ToMilliseconds d)) eqn:Hgt.
    + apply Qgtb_lt in Hgt.
      assert (H0 : 0 <= Qfloor (ToMilliseconds d)).
      { rewrite <- (Qfloor_Z 0). apply Qfloor_resp_le. exact Hd. }
      assert (Hlt : Qfloor (ToMilliseconds d) < interval).
      { rewrite Zlt_Qlt. eapply Qle_lt_trans; [apply Qfloor_le | exact Hgt]. }
      rewrite int_of_double_nonneg_floor by exact Hd.
      rewrite to_uint32_small by lia.
      destruct (negb _ && negb _); [|discriminate].
      intros [= <-]. lia.
    + simpl. discriminate.
  - destruct (Z.eqb_spec interval 0) as [->|Hne]; [discriminate|].
    destruct (negb (exit_before_sleep t)); simpl; [|discriminate].
    intros [= <-]. lia.
Qed.

Lemma omap_length_le {A B : Type} (f : A -> option B) (l : list A) :
  (length (omap f l) <= length l)%nat.
Proof.
  induction l as [|a l IH]; simpl; [lia|].
  change (list_omap A B f l) with (omap f l).
  destruct (f a); simpl; lia.
Qed.

(** X1.  The loop never sleeps longer than the interval and never asks for
    a sleep of zero ticks, and it sleeps at most once a turn: with the
    interval a [PRIntervalTime] and no negative duration, every argument that
    [PR_Sleep] receives is positive and at most the interval. *)
Theorem loop_sleeps_within_interval
    (logTracing : bool) (log : FILE) (threshold interval : Z)
    (ts : list Turn) (w : World) :
  0 <= interval < UINT32_MOD ->
  Forall (fun t => forall d, probe t = Some d -> (0 <= ToMilliseconds d)%Q) ts ->
  exists naps : list Z,
    sleeps (tracer_loop logTracing log threshold interval ts w)
    = sleeps w ++ naps
    /\ Forall (fun ticks => 0 < ticks <= interval) naps
    /\ (length naps <= length ts)%nat.
Proof.
  intros Hi Hd. exists (omap (sleep_of interval) ts).
  split; [apply sleeps_tracer_loop | split; [|apply omap_length_le]].
  induction Hd as [|t ts Ht _ IH]; simpl; [constructor|].
  destruct (sleep_of interval t) as [ticks|] eqn:E; [|exact IH].
  constructor; [|exact IH].
  eapply sleep_of_bound; [exact Hi | exact Ht | exact E].
Qed.

(** X2.  The pacing does not look at the logging: two runs of the loop over
    the same turns with the same interval make the same sleeps, whatever
    their logging flags, logs and thresholds are. *)
Theorem pacing_ignores_logging
    (logTracing logTracing' : bool) (log log' : FILE)
    (threshold threshold' interval : Z) (ts : list Turn) (w w' : World) :
  sleeps w = sleeps w' ->
  sleeps (tracer_loop logTracing log threshold interval ts w)
  = sleeps (tracer_loop logTracing' log' threshold' interval ts w').
Proof. intros Hs. rewrite !sleeps_tracer_loop, Hs. reflexivity. Qed.

(** X3.  When the threshold is not below the interval (as with the defaults
    of 20 and 10), a probe slower than the threshold is never followed by a
    sleep: the next probe is fired at once. *)
Theorem slow_probe_is_not_followed_by_sleep
    (logTracing : bool) (log : FILE) (threshold interval : Z)
    (t : Turn) (d : TimeDuration) (w : World) :
  interval <= threshold ->
  probe t = Some d ->
  (inject_Z threshold < ToMilliseconds d)%Q ->
  fst (probe_step logTracing log threshold interval t w) = 0
  /\ sleeps (loop_body logTracing log threshold interval t w) = sleeps w.
Proof.
  intros Hit Hp Hgt.
  assert (Hle : Qgtb (inject_Z interval) (ToMilliseconds d) = false).
  { apply Qgtb_le. apply Qlt_le_weak. eapply Qle_lt_trans; [|exact Hgt].
    rewrite <- Zle_Qle. exact Hit. }
  split.
  - unfold probe_step. rewrite Hp, Hle. reflexivity.
  - rewrite sleeps_loop_body. unfold sleep_of. rewrite Hp, Hle. simpl.
    apply app_nil_r.
Qed.

Lemma sample_of_lower (threshold threshold' : Z) (t : Turn) (l : LogLine) :
  threshold' <= threshold ->
  sample_of true threshold t = Some l ->
  sample_of true threshold' t = Some l.
Proof.
  intros Hle. unfold sample_of. destruct (probe t) as [d|]; [|discriminate].
  cbn [andb].
  destruct (Qgtb (ToMilliseconds d) (inject_Z threshold)) eqn:Hgt;
    [|discriminate].
  assert (Hgt' : Qgtb (ToMilliseconds d) (inject_Z threshold') = true).
  { apply Qgtb_lt. apply Qgtb_lt in Hgt.
    eapply Qle_lt_trans; [|exact Hgt]. rewrite <- Zle_Qle. exact Hle. }
  rewrite Hgt'. intros H. exact H.
Qed.

(** X4.  Lowering the threshold only adds sample lines: the lines that the
    loop prints under a threshold are, in the same order, among those it
    prints under any lower threshold. *)
Theorem lower_threshold_keeps_samples
    (log : FILE) (threshold threshold' interval : Z)
    (ts : list Turn) (w : World) :
  threshold' <= threshold ->
  exists lines lines' : list string,
    contents log (tracer_loop true log threshold interval ts w)
    = contents log w ++ lines
    /\ contents log (tracer_loop true log threshold' interval ts w)
       = contents log w ++ lines'
    /\ lines `sublist_of` lines'.
Proof.
  intros Hle.
  exists (map render (omap (sample_of true threshold) ts)),
         (map render (omap (sample_of true threshold') ts)).
  split; [apply contents_tracer_loop | split; [apply contents_tracer_loop|]].
  induction ts as [|t ts IH]; [constructor|].
  cbn [omap list_omap].
  change (list_omap Turn LogLine ?f ts) with (omap f ts).
  destruct (sample_of true threshold t) as [l|] eqn:E.
  - rewrite (sample_of_lower threshold threshold' t l Hle E).
    cbn [map]. apply sublist_skip. exact IH.
  - destruct (sample_of true threshold' t); [|exact IH].
    cbn [map]. apply sublist_cons. exact IH.
Qed.

(** ** The text of the log lines *)

Lemma decimal_inj (a b : Z) : decimal a = decimal b -> a = b.
Proof.
  unfold decimal. intros H.
  assert (Hnil : forall z, Z.to_int z <> Decimal.Pos Decimal.Nil
                           /\ Z.to_int z <> Decimal.Neg Decimal.Nil).
  { intros z. split; intros Hz; pose proof (DecimalZ.of_to z) as Hof;
      rewrite Hz in Hof; simpl in Hof; subst z; discriminate Hz. }
  apply (f_equal NilZero.int_of_string) in H.
  rewrite !NilZero.isi in H by apply Hnil.
  injection H as H.
  rewrite <- (DecimalZ.of_to a), <- (DecimalZ.of_to b), H. reflexivity.
Qed.

Lemma llu_inj (a b : Z) :
  0 <= a < 2 ^ 64 -> 0 <= b < 2 ^ 64 -> llu a = llu b -> a = b.
Proof.
  intros Ha Hb H. unfold llu in H. apply decimal_inj in H.
  rewrite !Z.mod_small in H by assumption. exact H.
Qed.

Lemma spaceless_uint (d : Decimal.uint) :
  spaceless (NilEmpty.string_of_uint d) = true.
Proof. induction d; simpl; auto. Qed.

Lemma decimal_spaceless (z : Z) : spaceless (decimal z) = true.
Proof.
  unfold decimal, NilZero.string_of_int, NilZero.string_of_uint.
  destruct (Z.to_int z) as [d|d]; destruct d; simpl;
    rewrite ?spaceless_uint; reflexivity.
Qed.

Lemma blank_splits_once (x x' y y' : string) :
  spaceless x = true -> spaceless x' = true ->
  x +:+ String " " y = x' +:+ String " " y' ->
  x = x' /\ y = y'.
Proof.
  revert x'. induction x as [|a x IH]; intros [|a' x'] Hx Hx' H; simpl in *.
  - injection H as ->. split; reflexivity.
  - injection H as <- _. simpl in Hx'. discriminate.
  - injection H as -> _. simpl in Hx. discriminate.
  - injection H as -> H.
    apply andb_prop in Hx as [_ Hx]. apply andb_prop in Hx' as [_ Hx'].
    destruct (IH x' Hx Hx' H) as [-> ->]. split; reflexivity.
Qed.

Lemma render_tag (l : LogLine) :
  String.prefix "MOZ_EVENT_TRACE " (render l) = true.
Proof. destruct l; reflexivity. Qed.

(** X15.  The text of a line tells which line it is: two lines whose time
    stamps fit an unsigned 64-bit number and which print alike are of the
    same kind and carry the same time stamp and the same duration. *)
Theorem render_injective (a b : LogLine) :
  printable a -> printable b -> render a = render b -> a = b.
Proof.
  destruct a as [t|t d|t], b as [t'|t' d'|t']; simpl; intros Ha Hb H;
    try (exfalso; discriminate H).
  - apply (inj (String.append "MOZ_EVENT_TRACE start ")) in H.
    rewrite (llu_inj t t' Ha Hb H). reflexivity.
  - apply (inj (String.append "MOZ_EVENT_TRACE sample ")) in H.
    apply blank_splits_once in H as [Ht Hd]; try apply decimal_spaceless.
    rewrite (llu_inj t t' Ha Hb Ht), (decimal_inj d d' Hd). reflexivity.
  - apply (inj (String.append "MOZ_EVENT_TRACE stop ")) in H.
    rewrite (llu_inj t t' Ha Hb H). reflexivity.
Qed.

(** ** More on a run of the thread: where the lines go *)

Lemma files_fprintf_stdout (line : LogLine) (w : World) :
  files (fprintf stdout line w) = files w.
Proof. reflexivity. Qed.

Lemma files_loop_body_stdout logTracing threshold interval (t : Turn) (w : World) :
  files (loop_body logTracing stdout threshold interval t w) = files w.
Proof.
  unfold loop_body, probe_step, sleep_step.
  destruct (probe t) as [d|]; simpl;
    repeat match goal with |- context [if ?b then _ else _] => destruct b end;
    reflexivity.
Qed.

Lemma files_tracer_loop_stdout logTracing threshold interval
    (ts : list Turn) (w : World) :
  files (tracer_loop logTracing stdout threshold interval ts w) = files w.
Proof.
  revert w. induction ts as [|t ts IH]; intros w; simpl; [reflexivity|].
  rewrite IH. apply files_loop_body_stdout.
Qed.

Lemma console_loop_body_stream logTracing path threshold interval
    (t : Turn) (w : World) :
  console (loop_body logTracing (stream path) threshold interval t w)
  = console w.
Proof.
  unfold loop_body, probe_step, sleep_step.
  destruct (probe t) as [d|]; simpl;
    repeat match goal with |- context [if ?b then _ else _] => destruct b end;
    reflexivity.
Qed.

Lemma console_tracer_loop_stream logTracing path threshold interval
    (ts : list Turn) (w : World) :
  console (tracer_loop logTracing (stream path) threshold interval ts w)
  = console w.
Proof.
  revert w. induction ts as [|t ts IH]; intros w; simpl; [reflexivity|].
  rewrite IH. apply console_loop_body_stream.
Qed.

(** A stream only ever changes its own file, whose lines are its
    contents. *)
Lemma files_loop_body_stream logTracing path threshold interval
    (t : Turn) (w : World) :
  let w' := loop_body logTracing (stream path) threshold interval t w in
  files w = <[path := contents (stream path) w]> (files w) ->
  files w' = <[path := contents (stream path) w']> (files w).
Proof.
  intros w' Hw. subst w'.
  unfold loop_body, probe_step, sleep_step.
  destruct (probe t) as [d|]; cbn [fst snd];
    repeat match goal with |- context [if ?b then _ else _] => destruct b end;
    unfold PR_Sleep, fprintf; cbn [files set_files set_sleeps contents];
    rewrite ?lookup_insert_eq; cbn [default]; try exact Hw;
    rewrite Hw at 2; rewrite insert_insert_eq; reflexivity.
Qed.

Lemma files_tracer_loop_stream logTracing path threshold interval
    (ts : list Turn) (w : World) :
  let w' := tracer_loop logTracing (stream path) threshold interval ts w in
  files w = <[path := contents (stream path) w]> (files w) ->
  files w' = <[path := contents (stream path) w']> (files w).
Proof.
  revert w. induction ts as [|t ts IH]; intros w w' Hw; subst w';
    cbn [tracer_loop]; [exact Hw|].
  pose proof (files_loop_body_stream logTracing path threshold interval t w Hw)
    as Hstep. cbv zeta in Hstep.
  set (w1 := loop_body logTracing (stream path) threshold interval t w) in *.
  assert (Hw1 : files w1 = <[path := contents (stream path) w1]> (files w1)).
  { rewrite Hstep at 2. rewrite insert_insert_eq. exact Hstep. }
  rewrite (IH w1 Hw1). rewrite Hstep, insert_insert_eq. reflexivity.
Qed.

Lemma files_fprintf_stream (path : string) (line : LogLine) (w : World) :
  files (fprintf (stream path) line w)
  = <[path := contents (stream path) (fprintf (stream path) line w)]> (files w).
Proof. rewrite contents_fprintf. reflexivity. Qed.

Lemma log_of_stdout (w : World) :
  log_of w = stdout <->
  PR_GetEnv "MOZ_INSTRUMENT_EVENT_LOOP_OUTPUT" w = None
  \/ exists path, PR_GetEnv "MOZ_INSTRUMENT_EVENT_LOOP_OUTPUT" w = Some path
                  /\ path ∈ unwritable w.
Proof.
  unfold log_of, open_log, fopen_w.
  destruct (PR_GetEnv "MOZ_INSTRUMENT_EVENT_LOOP_OUTPUT" w) as [envfile|].
  - destruct (decide (envfile ∈ unwritable w)) as [Hin|Hout]; simpl; split.
    + intros _. right. exists envfile. split; [reflexivity | exact Hin].
    + intros _. reflexivity.
    + discriminate.
    + intros [H|(path & [= <-] & Hin)]; [discriminate | contradiction].
  - simpl. split; [intros _; left; reflexivity | intros _; reflexivity].
Qed.

Lemma log_of_stream (w : World) (path : string) :
  log_of w = stream path <->
  PR_GetEnv "MOZ_INSTRUMENT_EVENT_LOOP_OUTPUT" w = Some path
  /\ path ∉ unwritable w.
Proof.
  unfold log_of, open_log, fopen_w.
  destruct (PR_GetEnv "MOZ_INSTRUMENT_EVENT_LOOP_OUTPUT" w) as [envfile|].
  - destruct (decide (envfile ∈ unwritable w)) as [Hin|Hout]; simpl; split.
    + discriminate.
    + intros [[= <-] Hout]. contradiction.
    + intros [= <-]. split; [reflexivity | exact Hout].
    + intros [[= <-] _]. reflexivity.
  - simpl. split; [discriminate | intros [H _]; discriminate].
Qed.

Section ThreadRun.

Variable PR_MillisecondsToInterval : Z -> Z.

Lemma TracerThread_on_stdout (args : TracerStartClosure) (r : Run) (w : World) :
  log_of w = stdout ->
  let w' := TracerThread PR_MillisecondsToInterval args r w in
  files w' = files w /\ open_streams w' = open_streams w.
Proof.
  intros Hlog w'. subst w'. revert Hlog.
  unfold log_of, TracerThread, open_log, fopen_w, PR_GetEnv.
  cbn [environ unwritable set_sExit].
  destruct (environ w !! "MOZ_INSTRUMENT_EVENT_LOOP_OUTPUT") as [envfile|];
    [destruct (decide (envfile ∈ unwritable w))|]; cbn [fst snd];
    try discriminate; intros _;
    destruct (mLogTracing args);
    rewrite ?files_fprintf_stdout, ?files_tracer_loop_stdout,
      ?files_fprintf_stdout;
    (split; [reflexivity|]);
    repeat match goal with
      | |- context [tracer_loop ?a ?b ?c ?d ?e ?f] =>
          destruct (tracer_loop_frame a b c d e f) as (_ & _ & Ho & _);
          cbv zeta in Ho; unfold fprintf in *; cbn in Ho |- *; rewrite Ho
      end; reflexivity.
Qed.

Lemma TracerThread_on_stream (args : TracerStartClosure) (r : Run) (w : World)
    (path : string) :
  PR_GetEnv "MOZ_INSTRUMENT_EVENT_LOOP_OUTPUT" w = Some path ->
  path ∉ unwritable w ->
  let w' := TracerThread PR_MillisecondsToInterval args r w in
  files w' = <[path := contents (stream path) w']> (files w)
  /\ console w' = console w
  /\ open_streams w' = open_streams w ∖ {[path]}.
Proof.
  intros Henv Hout w'. subst w'.
  unfold TracerThread, open_log, fopen_w.
  unfold PR_GetEnv in *. cbn [environ unwritable set_sExit]. rewrite Henv.
  destruct (decide (path ∈ unwritable w)) as [?|_]; [contradiction|].
  cbn [fst snd].
  set (w1 := set_open_streams ({[path]} ∪ open_streams (set_sExit false w))
               (set_files (<[path := []]> (files (set_sExit false w)))
                  (set_sExit false w))).
  assert (H1 : files w1 = <[path := contents (stream path) w1]> (files w)).
  { unfold w1, contents. cbn. rewrite lookup_insert_eq. reflexivity. }
  set (th := resolve_threshold PR_MillisecondsToInterval _).
  set (iv := resolve_interval PR_MillisecondsToInterval _).
  set (w2 := if mLogTracing args then fprintf (stream path) _ w1 else w1).
  assert (H2 : files w2 = <[path := contents (stream path) w2]> (files w)
               /\ console w2 = console w
               /\ open_streams w2 = {[path]} ∪ open_streams w).
  { unfold w2. destruct (mLogTracing args);
      [rewrite files_fprintf_stream, H1, insert_insert_eq|];
      repeat split; try reflexivity. exact H1. }
  destruct H2 as (H2 & Hc2 & Ho2).
  set (w3 := tracer_loop (mLogTracing args) (stream path) th iv (turns r) w2).
  assert (H3 : files w3 = <[path := contents (stream path) w3]> (files w)
               /\ console w3 = console w
               /\ open_streams w3 = {[path]} ∪ open_streams w).
  { unfold w3. split; [|split].
    - rewrite files_tracer_loop_stream;
        [rewrite H2, insert_insert_eq; reflexivity|].
      rewrite H2 at 2. rewrite insert_insert_eq. exact H2.
    - rewrite console_tracer_loop_stream. exact Hc2.
    - destruct (tracer_loop_frame (mLogTracing args) (stream path) th iv
                  (turns r) w2) as (_ & _ & -> & _). exact Ho2. }
  destruct H3 as (H3 & Hc3 & Ho3).
  set (w4 := if mLogTracing args then fprintf (stream path) _ w3 else w3).
  assert (H4 : files w4 = <[path := contents (stream path) w4]> (files w)
               /\ console w4 = console w
               /\ open_streams w4 = {[path]} ∪ open_streams w).
  { unfold w4. destruct (mLogTracing args);
      [rewrite files_fprintf_stream, H3, insert_insert_eq|];
      repeat split; try reflexivity; assumption. }
  destruct H4 as (H4 & Hc4 & Ho4).
  split; [|split].
  - rewrite contents_fclose. exact H4.
  - exact Hc4.
  - unfold fclose. cbn [open_streams set_open_streams]. rewrite Ho4.
    generalize (open_streams w). clear. intros streams.
    apply set_eq. intros x. rewrite !elem_of_difference, elem_of_union.
    tauto.
Qed.

Lemma TracerThread_environ (args : TracerStartClosure) (r : Run) (w : World) :
  let w' := TracerThread PR_MillisecondsToInterval args r w in
  environ w' = environ w /\ unwritable w' = unwritable w.
Proof.
  unfold TracerThread, open_log, fopen_w, PR_GetEnv.
  cbn [environ unwritable set_sExit].
  destruct (environ w !! "MOZ_INSTRUMENT_EVENT_LOOP_OUTPUT") as [envfile|];
    [destruct (decide (envfile ∈ unwritable w))|]; cbn [fst snd];
    destruct (mLogTracing args); unfold fclose, fprintf; cbn;
    repeat match goal with
      | |- context [tracer_loop ?a ?b ?c ?d ?e ?f] =>
          destruct (tracer_loop_frame a b c d e f) as (-> & -> & _ & _)
      end;
    split; reflexivity.
Qed.

(** X5.  When no output file is named, or the named file cannot be opened,
    the thread logs to the standard output and changes no file: the lines
    of the run are appended to what the standard output already holds. *)
Theorem log_falls_back_to_stdout
    (args : TracerStartClosure) (r : Run) (w : World) :
  PR_GetEnv "MOZ_INSTRUMENT_EVENT_LOOP_OUTPUT" w = None
  \/ (exists path, PR_GetEnv "MOZ_INSTRUMENT_EVENT_LOOP_OUTPUT" w = Some path
                   /\ path ∈ unwritable w) ->
  let w' := TracerThread PR_MillisecondsToInterval args r w in
  files w' = files w
  /\ console w'
     = console w
       ++ (if mLogTracing args
           then map render
                  (run_lines
                     (resolve_threshold PR_MillisecondsToInterval
                        (PR_GetEnv "MOZ_INSTRUMENT_EVENT_LOOP_THRESHOLD" w))
                     r)
           else []).
Proof.
  intros Henv w'. apply log_of_stdout in Henv.
  split; [apply TracerThread_on_stdout; exact Henv|].
  pose proof (TracerThread_log PR_MillisecondsToInterval args r w) as Hlog.
  unfold log_before in Hlog. rewrite Henv in Hlog. exact Hlog.
Qed.

(** X6.  When the named output file can be opened, the thread logs to it
    and to nothing else: after the run the file holds the lines of this run
    only (what it held before is lost, and it is empty when logging is
    disabled), every other file is as it was, and nothing went to the
    standard output. *)
Theorem log_goes_to_named_file
    (args : TracerStartClosure) (r : Run) (w : World) (path : string) :
  PR_GetEnv "MOZ_INSTRUMENT_EVENT_LOOP_OUTPUT" w = Some path ->
  path ∉ unwritable w ->
  let w' := TracerThread PR_MillisecondsToInterval args r w in
  console w' = console w
  /\ files w'
     = <[path :=
           if mLogTracing args
           then map render
                  (run_lines
                     (resolve_threshold PR_MillisecondsToInterval
                        (PR_GetEnv "MOZ_INSTRUMENT_EVENT_LOOP_THRESHOLD" w))
                     r)
           else []]> (files w).
Proof.
  intros Henv Hout w'.
  destruct (TracerThread_on_stream args r w path Henv Hout) as (Hf & Hc & _).
  split; [exact Hc|]. subst w'. rewrite Hf. f_equal.
  assert (Hlog : log_of w = stream path) by (apply log_of_stream; auto).
  pose proof (TracerThread_log PR_MillisecondsToInterval args r w) as Hl.
  unfold log_before in Hl. rewrite Hlog in Hl. exact Hl.
Qed.

(** X7.  The thread leaves no stream open: the file it opened is closed
    when it ends, and it opens no other. *)
Theorem thread_closes_its_stream
    (args : TracerStartClosure) (r : Run) (w : World) :
  let w' := TracerThread PR_MillisecondsToInterval args r w in
  open_streams w' ⊆ open_streams w
  /\ (forall path, log_of w = stream path -> path ∉ open_streams w').
Proof.
  intros w'. subst w'.
  destruct (log_of w) as [|path] eqn:Hlog.
  - destruct (TracerThread_on_stdout args r w Hlog) as [_ Ho].
    rewrite Ho. split; [reflexivity | discriminate].
  - apply log_of_stream in Hlog as [Henv Hout].
    destruct (TracerThread_on_stream args r w path Henv Hout) as (_ & _ & Ho).
    rewrite Ho. split.
    + intros x Hx. apply elem_of_difference in Hx as [Hx _]. exact Hx.
    + intros path' [= <-]. rewrite elem_of_difference, elem_of_singleton.
      tauto.
Qed.

(** X8.  The thread touches only its log: it changes neither the
    environment nor which paths can be opened, neither the handle nor the
    thread table nor the widget backend, and no file other than the one
    that the output variable names. *)
Theorem thread_touches_only_its_log
    (args : TracerStartClosure) (r : Run) (w : World) :
  let w' := TracerThread PR_MillisecondsToInterval args r w in
  environ w' = environ w /\ unwritable w' = unwritable w
  /\ sTracerThread w' = sTracerThread w /\ threads w' = threads w
  /\ widget_tracing w' = widget_tracing w
  /\ (forall path,
        PR_GetEnv "MOZ_INSTRUMENT_EVENT_LOOP_OUTPUT" w <> Some path ->
        files w' !! path = files w !! path).
Proof.
  intros w'. subst w'.
  destruct (TracerThread_environ args r w) as [He Hu].
  destruct (TracerThread_frame PR_MillisecondsToInterval args r w)
    as (Ht & Hh & Hw).
  repeat (split; [assumption|]).
  intros path Hne.
  destruct (log_of w) as [|path'] eqn:Hlog.
  - destruct (TracerThread_on_stdout args r w Hlog) as [-> _]. reflexivity.
  - apply log_of_stream in Hlog as [Henv Hout].
    destruct (TracerThread_on_stream args r w path' Henv Hout) as (-> & _ & _).
    apply lookup_insert_ne. congruence.
Qed.

(** X9.  Whatever the run, the thread appends at most one line a turn and
    two more, each starting with the tag that the header of the source
    announces; with logging disabled it appends none. *)
Theorem thread_lines_are_tagged
    (args : TracerStartClosure) (r : Run) (w : World) :
  exists new : list string,
    contents (log_of w) (TracerThread PR_MillisecondsToInterval args r w)
    = log_before w ++ new
    /\ Forall (fun s => String.prefix "MOZ_EVENT_TRACE " s = true) new
    /\ (length new <= length (turns r) + 2)%nat
    /\ (mLogTracing args = false -> new = []).
Proof.
  eexists. split; [apply TracerThread_log|].
  destruct (mLogTracing args).
  - split; [|split; [|discriminate]].
    + apply Forall_forall. intros s Hs. apply list_elem_of_In in Hs.
      apply in_map_iff in Hs as (l & <- & _). apply render_tag.
    + unfold run_lines. rewrite length_map. cbn [length].
      rewrite length_app. cbn [length].
      pose proof (omap_length_le (sample_of true
        (resolve_threshold PR_MillisecondsToInterval
           (PR_GetEnv "MOZ_INSTRUMENT_EVENT_LOOP_THRESHOLD" w))) (turns r)).
      lia.
  - split; [constructor | split; [simpl; lia | reflexivity]].
Qed.

End ThreadRun.

(** ** More on start and stop *)

Section StartStop.

Variable PR_MillisecondsToInterval : Z -> Z.

Lemma start_keeps_streams (aLog widget_ok spawned : bool) (w : World) :
  open_streams (snd (InitEventTracing aLog widget_ok spawned w))
  = open_streams w.
Proof.
  unfold InitEventTracing. destruct (sTracerThread w); [reflexivity|].
  destruct widget_ok; [|reflexivity]. destruct spawned; reflexivity.
Qed.

(** C3, as the code behaves.  A cycle started with logging disabled prints no
    line: the standard output is as it was, and so is every file but the
    one that the output variable names.  That file, when it can be opened,
    is created or emptied by the thread (fopen with mode "w") and closed
    with nothing in it; no stream is left open. *)
Theorem quiet_cycle_prints_nothing
    (widget_ok spawned : bool) (r : Run) (w w1 : World) :
  sTracerThread w = None ->
  InitEventTracing false widget_ok spawned w = (true, w1) ->
  let w2 := ShutdownEventTracing PR_MillisecondsToInterval r w1 in
  console w2 = console w
  /\ files w2 = files_after_open w
  /\ contents (log_of w) w2 = log_before w
  /\ (forall path : string,
        PR_GetEnv "MOZ_INSTRUMENT_EVENT_LOOP_OUTPUT" w <> Some path ->
        files w2 !! path = files w !! path)
  /\ (forall path : string,
        PR_GetEnv "MOZ_INSTRUMENT_EVENT_LOOP_OUTPUT" w = Some path ->
        (path ∉ unwritable w ->
         files w2 !! path = Some []
         /\ (path ∉ open_streams w2)
         /\ open_streams w2 = open_streams w ∖ {[path]})
        /\ (path ∈ unwritable w ->
            files w2 !! path = files w !! path
            /\ open_streams w2 = open_streams w))
  /\ (PR_GetEnv "MOZ_INSTRUMENT_EVENT_LOOP_OUTPUT" w = None ->
      open_streams w2 = open_streams w)
  /\ open_streams w2 ⊆ open_streams w.
Proof.
  intros Hnone Hinit w2.
  destruct (start_then_stop PR_MillisecondsToInterval false widget_ok spawned
              r w w1 Hnone Hinit) as (h & Hstop & He & Hu & Hf & Hc).
  destruct (TracerThread_quiet PR_MillisecondsToInterval r w1)
    as [Hfiles Hconsole].
  assert (Hf2 : files w2 = files_after_open w).
  { subst w2. rewrite Hstop. cbn [files set_widget_tracing set_sTracerThread
      set_threads set_sExit].
    rewrite Hfiles. apply files_after_open_ext; assumption. }
  assert (Ho1 : open_streams w1 = open_streams w).
  { rewrite <- (start_keeps_streams false widget_ok spawned w), Hinit.
    reflexivity. }
  assert (Ho2 : open_streams w2
                = open_streams
                    (TracerThread PR_MillisecondsToInterval
                       {| mLogTracing := false |} r w1)).
  { subst w2. rewrite Hstop. reflexivity. }
  assert (Hclosed : forall path,
             PR_GetEnv "MOZ_INSTRUMENT_EVENT_LOOP_OUTPUT" w = Some path ->
             path ∉ unwritable w ->
             open_streams w2 = open_streams w ∖ {[path]}).
  { intros path Hp Hw. rewrite Ho2, <- Ho1.
    apply (TracerThread_on_stream PR_MillisecondsToInterval
             {| mLogTracing := false |} r w1 path).
    - unfold PR_GetEnv in *. rewrite He. exact Hp.
    - rewrite Hu. exact Hw. }
  assert (Hsame : log_of w = stdout -> open_streams w2 = open_streams w).
  { intros Hlog. rewrite Ho2, <- Ho1.
    apply (TracerThread_on_stdout PR_MillisecondsToInterval
             {| mLogTracing := false |} r w1).
    rewrite (log_of_ext w1 w He Hu). exact Hlog. }
  split; [|split; [exact Hf2 | split; [|split; [|split; [|split]]]]].
  - subst w2. rewrite Hstop. cbn [console set_widget_tracing set_sTracerThread
      set_threads set_sExit]. rewrite Hconsole. exact Hc.
  - subst w2. rewrite Hstop, contents_after_stop.
    rewrite <- (log_of_ext w1 w He Hu), <- (log_before_ext w1 w He Hu Hc).
    rewrite TracerThread_log. apply app_nil_r.
  - intros path Hp. rewrite Hf2. unfold files_after_open.
    destruct (PR_GetEnv "MOZ_INSTRUMENT_EVENT_LOOP_OUTPUT" w) as [envfile|];
      [|reflexivity].
    destruct (decide (envfile ∈ unwritable w)); [reflexivity|].
    apply lookup_insert_ne. congruence.
  - intros path Hp. split; intros Hw.
    + split; [|split].
      * rewrite Hf2. unfold files_after_open. rewrite Hp.
        destruct (decide (path ∈ unwritable w)); [contradiction|].
        apply lookup_insert_eq.
      * rewrite (Hclosed path Hp Hw), elem_of_difference, elem_of_singleton.
        tauto.
      * exact (Hclosed path Hp Hw).
    + split.
      * rewrite Hf2. unfold files_after_open. rewrite Hp.
        destruct (decide (path ∈ unwritable w)); [reflexivity|contradiction].
      * apply Hsame. apply log_of_stdout. right. exists path. auto.
  - intros Hp. apply Hsame. apply log_of_stdout. left. exact Hp.
  - destruct (log_of w) as [|path] eqn:Hlog.
    + rewrite (Hsame eq_refl). reflexivity.
    + apply log_of_stream in Hlog as [Hp Hw].
      rewrite (Hclosed path Hp Hw). intros x Hx.
      apply elem_of_difference in Hx as [Hx _]. exact Hx.
Qed.

(** X10.  Stopping twice is stopping once: a stop that finds no tracer
    returns at once, and that is what a stop after a stop finds. *)
Theorem stop_is_idempotent (r r' : Run) (w : World) :
  ShutdownEventTracing PR_MillisecondsToInterval r'
    (ShutdownEventTracing PR_MillisecondsToInterval r w)
  = ShutdownEventTracing PR_MillisecondsToInterval r w.
Proof.
  unfold ShutdownEventTracing at 1.
  assert (H : sTracerThread (ShutdownEventTracing PR_MillisecondsToInterval r w)
              = None).
  { unfold ShutdownEventTracing.
    destruct (sTracerThread w) as [h|] eqn:Hh; [reflexivity | exact Hh]. }
  rewrite H. reflexivity.
Qed.

(** X11.  What a start returns tells whether a tracer runs after it: from a
    state where the handle and the thread table agree, it returns true
    exactly when the handle is set afterwards, and exactly when there is
    one tracer thread afterwards. *)
Theorem start_returns_whether_tracer_runs
    (aLog widget_ok spawned : bool) (w : World) :
  tracked w ->
  let ok := fst (InitEventTracing aLog widget_ok spawned w) in
  let w1 := snd (InitEventTracing aLog widget_ok spawned w) in
  (ok = true <-> is_Some (sTracerThread w1))
  /\ (ok = true <-> size (threads w1) = 1%nat)
  /\ (ok = false <-> size (threads w1) = 0%nat).
Proof.
  intros Ht ok w1. subst ok w1. unfold tracked in Ht. unfold InitEventTracing.
  destruct (sTracerThread w) as [h|] eqn:Hh.
  - destruct Ht as [args Ht]. cbn [fst snd]. rewrite Hh, Ht, map_size_singleton.
    repeat split; intros; try reflexivity; try discriminate; eauto.
  - destruct widget_ok; cbn [negb fst snd].
    + destruct spawned; cbn.
      * rewrite Ht, insert_empty, map_size_singleton.
        repeat split; intros; try reflexivity; try discriminate; eauto.
      * rewrite Ht, map_size_empty.
        repeat split; intros; try reflexivity; try discriminate.
        destruct H as [? H]; discriminate H.
    + rewrite Hh, Ht, map_size_empty.
      repeat split; intros; try reflexivity; try discriminate.
      destruct H as [? H]; discriminate H.
Qed.

(** X12.  A stop brings the process back to rest, and a stopped tracer can
    be started again: after a start that succeeded from rest and a stop,
    the handle is null, the thread table is what it was before the start,
    the widget backend is cleaned up and [sExit] is set; a start made then
    succeeds as soon as the widget backend and the thread creation do. *)
Theorem stopped_tracer_can_be_restarted
    (aLog widget_ok spawned : bool) (r : Run) (w w1 : World) :
  sTracerThread w = None ->
  InitEventTracing aLog widget_ok spawned w = (true, w1) ->
  let w2 := ShutdownEventTracing PR_MillisecondsToInterval r w1 in
  sTracerThread w2 = None
  /\ threads w2 = threads w
  /\ widget_tracing w2 = false
  /\ sExit w2 = true
  /\ environ w2 = environ w
  /\ (forall aLog' : bool,
        fst (InitEventTracing aLog' true true w2) = true
        /\ is_Some (sTracerThread (snd (InitEventTracing aLog' true true w2)))).
Proof.
  intros Hnone Hinit w2.
  assert (Hrest : sTracerThread w2 = None).
  { subst w2. unfold ShutdownEventTracing.
    destruct (sTracerThread w1) eqn:E; [reflexivity | exact E]. }
  unfold InitEventTracing in Hinit. rewrite Hnone in Hinit.
  destruct widget_ok; [|discriminate]. destruct spawned; [|discriminate].
  cbn in Hinit. injection Hinit as <-.
  split; [exact Hrest|].
  assert (Hfresh : threads w !! fresh (dom (threads w)) = None).
  { apply not_elem_of_dom. apply is_fresh. }
  subst w2. unfold ShutdownEventTracing in *.
  cbn [sTracerThread set_sTracerThread threads set_threads
       set_widget_tracing] in *.
  rewrite lookup_insert_eq in *.
  cbn [threads set_threads set_sTracerThread set_widget_tracing
       widget_tracing sExit set_sExit environ].
  split; [apply delete_insert_id; exact Hfresh|].
  split; [reflexivity|]. split; [reflexivity|].
  split.
  - destruct (TracerThread_environ PR_MillisecondsToInterval
                {| mLogTracing := aLog |} r
                (set_sTracerThread (Some (fresh (dom (threads w))))
                   (set_threads
                      (<[fresh (dom (threads w)) := {| mLogTracing := aLog |}]>
                         (threads w))
                      (set_widget_tracing true w)))) as [He _].
    cbv zeta in He. rewrite He. reflexivity.
  - intros aLog'. unfold InitEventTracing.
    cbn [sTracerThread set_sTracerThread set_widget_tracing set_threads
         negb fst snd].
    split; [reflexivity | eexists; reflexivity].
Qed.

End StartStop.

Lemma quiet_cycle_prints_nothing_witness :
  sTracerThread redirected_world = None
  /\ InitEventTracing false true true redirected_world
     = (true, snd (InitEventTracing false true true redirected_world))
  /\ console
       (ShutdownEventTracing ticks_1kHz short_run
          (snd (InitEventTracing false true true redirected_world)))
     = console redirected_world.
Proof.
  assert (H1 : sTracerThread redirected_world = None) by reflexivity.
  assert (H2 : InitEventTracing false true true redirected_world
               = (true, snd (InitEventTracing false true true redirected_world)))
    by reflexivity.
  split; [exact H1 | split; [exact H2|]].
  exact (proj1 (quiet_cycle_prints_nothing ticks_1kHz true true short_run
                  redirected_world _ H1 H2)).
Defined.

Section Sequences.

Variable PR_MillisecondsToInterval : Z -> Z.

Lemma backed_call (c : Call) (w : World) :
  backed w -> backed (call PR_MillisecondsToInterval w c).
Proof.
  unfold backed. intros Hb. destruct c as [aLog widget_ok spawned|r]; simpl.
  - unfold InitEventTracing.
    destruct (sTracerThread w) as [h|] eqn:Hh; cbn [snd].
    + rewrite Hh. exact Hb.
    + destruct widget_ok; cbn [negb snd]; [|rewrite Hh; exact Hb].
      destruct spawned; cbn; intros _; reflexivity.
  - unfold ShutdownEventTracing.
    destruct (sTracerThread w) as [h|] eqn:Hh; [|rewrite Hh; exact Hb].
    cbn. intros [? H]. discriminate H.
Qed.

(** X13.  A tracer never runs without the widget backend: if the backend
    is initialised whenever the handle is set, this stays so through every
    sequence of starts and stops. *)
Theorem running_tracer_has_widget_backend (cs : list Call) (w : World) :
  backed w -> backed (calls PR_MillisecondsToInterval cs w).
Proof.
  unfold calls. revert w. induction cs as [|c cs IH]; intros w Hb; [exact Hb|].
  simpl. apply IH. apply backed_call. exact Hb.
Qed.

(** X14.  After a stop no tracer thread is left: from a state where the
    handle and the thread table agree, the stop returns with the handle
    null and the thread table empty, whatever ran before. *)
Theorem stop_leaves_no_thread (r : Run) (w : World) :
  tracked w ->
  let w' := ShutdownEventTracing PR_MillisecondsToInterval r w in
  sTracerThread w' = None /\ threads w' = ∅.
Proof.
  intros Ht w'.
  pose proof (tracked_stop PR_MillisecondsToInterval r w Ht) as Ht'.
  fold w' in Ht'. unfold tracked in Ht'.
  assert (H : sTracerThread w' = None).
  { subst w'. unfold ShutdownEventTracing.
    destruct (sTracerThread w) as [h|] eqn:Hh; [reflexivity | exact Hh]. }
  rewrite H in Ht'. split; [exact H | exact Ht'].
Qed.

End Sequences.

(** ** The further statements at concrete inputs *)

Lemma loop_sleeps_within_interval_witness :
  0 <= 10 < UINT32_MOD
  /\ Forall (fun t => forall d, probe t = Some d -> (0 <= ToMilliseconds d)%Q)
       (turns short_run)
  /\ exists naps : list Z,
       sleeps (tracer_loop true stdout 20 10 (turns short_run) quiet_world)
       = sleeps quiet_world ++ naps
       /\ Forall (fun ticks => 0 < ticks <= 10) naps
       /\ (length naps <= length (turns short_run))%nat.
Proof.
  assert (H1 : 0 <= 10 < UINT32_MOD) by (unfold UINT32_MOD; lia).
  assert (H2 : Forall (fun t => forall d, probe t = Some d ->
                                          (0 <= ToMilliseconds d)%Q)
                 (turns short_run)).
  { repeat constructor; intros d [= <-]; unfold Qle; simpl; lia. }
  split; [exact H1 | split; [exact H2|]].
  exact (loop_sleeps_within_interval true stdout 20 10 (turns short_run)
           quiet_world H1 H2).
Defined.

Lemma pacing_ignores_logging_witness :
  sleeps quiet_world = sleeps redirected_world
  /\ sleeps (tracer_loop true stdout 20 10 (turns short_run) quiet_world)
     = sleeps (tracer_loop false (stream "trace.log") 5 10 (turns short_run)
                 redirected_world).
Proof.
  assert (H1 : sleeps quiet_world = sleeps redirected_world) by reflexivity.
  split; [exact H1|].
  exact (pacing_ignores_logging true false stdout (stream "trace.log") 20 5 10
           (turns short_run) quiet_world redirected_world H1).
Defined.

Lemma slow_probe_is_not_followed_by_sleep_witness :
  10 <= 20
  /\ probe (completed (357 # 10) 3000000) = Some (millis (357 # 10))
  /\ (inject_Z 20 < ToMilliseconds (millis (357 # 10)))%Q
  /\ fst (probe_step true stdout 20 10 (completed (357 # 10) 3000000)
            quiet_world) = 0.
Proof.
  assert (H1 : 10 <= 20) by lia.
  assert (H3 : (inject_Z 20 < ToMilliseconds (millis (357 # 10)))%Q)
    by reflexivity.
  split; [exact H1 | split; [reflexivity | split; [exact H3|]]].
  exact (proj1 (slow_probe_is_not_followed_by_sleep true stdout 20 10
                  (completed (357 # 10) 3000000) (millis (357 # 10))
                  quiet_world H1 eq_refl H3)).
Defined.

Lemma lower_threshold_keeps_samples_witness :
  4 <= 20
  /\ exists lines lines' : list string,
       contents stdout (tracer_loop true stdout 20 10 (turns short_run)
                          quiet_world)
       = contents stdout quiet_world ++ lines
       /\ contents stdout (tracer_loop true stdout 4 10 (turns short_run)
                             quiet_world)
          = contents stdout quiet_world ++ lines'
       /\ lines `sublist_of` lines'.
Proof.
  assert (H1 : 4 <= 20) by lia.
  split; [exact H1|].
  exact (lower_threshold_keeps_samples stdout 20 4 10 (turns short_run)
           quiet_world H1).
Defined.

Lemma render_injective_witness :
  printable (TraceSample 3000 35)
  /\ render (TraceSample 3000 35) = render (TraceSample 3000 35)
  /\ TraceSample 3000 35 = TraceSample 3000 35.
Proof.
  assert (H1 : printable (TraceSample 3000 35)) by (simpl; lia).
  split; [exact H1 | split; [reflexivity|]].
  exact (render_injective (TraceSample 3000 35) (TraceSample 3000 35)
           H1 H1 eq_refl).
Defined.

Lemma log_falls_back_to_stdout_witness :
  (exists path,
      PR_GetEnv "MOZ_INSTRUMENT_EVENT_LOOP_OUTPUT" locked_world = Some path
      /\ path ∈ unwritable locked_world)
  /\ files (TracerThread ticks_1kHz {| mLogTracing := true |} short_run
              locked_world)
     = files locked_world.
Proof.
  assert (H1 : exists path,
             PR_GetEnv "MOZ_INSTRUMENT_EVENT_LOOP_OUTPUT" locked_world
             = Some path /\ path ∈ unwritable locked_world).
  { exists "trace.log". split; [reflexivity|]. vm_compute. reflexivity. }
  split; [exact H1|].
  exact (proj1 (log_falls_back_to_stdout ticks_1kHz {| mLogTracing := true |}
                  short_run locked_world (or_intror H1))).
Defined.

Lemma log_goes_to_named_file_witness :
  PR_GetEnv "MOZ_INSTRUMENT_EVENT_LOOP_OUTPUT" redirected_world
  = Some "trace.log"
  /\ ("trace.log" ∉ unwritable redirected_world)
  /\ console (TracerThread ticks_1kHz {| mLogTracing := true |} short_run
                redirected_world)
     = console redirected_world.
Proof.
  assert (H2 : "trace.log" ∉ unwritable redirected_world).
  { intros H. vm_compute in H. discriminate H. }
  split; [reflexivity | split; [exact H2|]].
  exact (proj1 (log_goes_to_named_file ticks_1kHz {| mLogTracing := true |}
                  short_run redirected_world "trace.log" eq_refl H2)).
Defined.

Lemma thread_closes_its_stream_witness :
  log_of redirected_world = stream "trace.log"
  /\ ("trace.log"
      ∉ open_streams (TracerThread ticks_1kHz {| mLogTracing := true |}
                        short_run redirected_world)).
Proof.
  assert (H1 : log_of redirected_world = stream "trace.log") by reflexivity.
  split; [exact H1|].
  exact (proj2 (thread_closes_its_stream ticks_1kHz {| mLogTracing := true |}
                  short_run redirected_world) "trace.log" H1).
Defined.

Lemma thread_touches_only_its_log_witness :
  PR_GetEnv "MOZ_INSTRUMENT_EVENT_LOOP_OUTPUT" redirected_world
  <> Some "other.log"
  /\ files (TracerThread ticks_1kHz {| mLogTracing := true |} short_run
              redirected_world) !! "other.log"
     = files redirected_world !! "other.log".
Proof.
  assert (H1 : PR_GetEnv "MOZ_INSTRUMENT_EVENT_LOOP_OUTPUT" redirected_world
               <> Some "other.log") by discriminate.
  split; [exact H1|].
  destruct (thread_touches_only_its_log ticks_1kHz {| mLogTracing := true |}
              short_run redirected_world) as (_ & _ & _ & _ & _ & H).
  exact (H "other.log" H1).
Defined.

Lemma thread_lines_are_tagged_witness :
  exists new : list string,
    contents (log_of locked_world)
      (TracerThread ticks_1kHz {| mLogTracing := false |} short_run
         locked_world)
    = log_before locked_world ++ new
    /\ new = [].
Proof.
  destruct (thread_lines_are_tagged ticks_1kHz {| mLogTracing := false |}
              short_run locked_world) as (new & Hc & _ & _ & Hn).
  exists new. split; [exact Hc | exact (Hn eq_refl)].
Defined.

Lemma start_returns_whether_tracer_runs_witness :
  tracked quiet_world
  /\ (fst (InitEventTracing true true false quiet_world) = false
      <-> size (threads (snd (InitEventTracing true true false quiet_world)))
          = 0%nat).
Proof.
  assert (H1 : tracked quiet_world) by reflexivity.
  split; [exact H1|].
  exact (proj2 (proj2 (start_returns_whether_tracer_runs true true false
                         quiet_world H1))).
Defined.

Lemma stopped_tracer_can_be_restarted_witness :
  sTracerThread redirected_world = None
  /\ InitEventTracing true true true redirected_world
     = (true, snd (InitEventTracing true true true redirected_world))
  /\ threads (ShutdownEventTracing ticks_1kHz short_run
                (snd (InitEventTracing true true true redirected_world)))
     = threads redirected_world.
Proof.
  assert (H1 : sTracerThread redirected_world = None) by reflexivity.
  assert (H2 : InitEventTracing true true true redirected_world
               = (true, snd (InitEventTracing true true true redirected_world)))
    by reflexivity.
  split; [exact H1 | split; [exact H2|]].
  exact (proj1 (proj2 (stopped_tracer_can_be_restarted ticks_1kHz true true
                         true short_run redirected_world _ H1 H2))).
Defined.

Lemma running_tracer_has_widget_backend_witness :
  backed quiet_world
  /\ backed (calls ticks_1kHz
               [CallStart true true false; CallStart false true true;
                CallStop short_run; CallStart true false true]
               quiet_world).
Proof.
  assert (H1 : backed quiet_world).
  { intros [h Hh]. discriminate Hh. }
  split; [exact H1|].
  exact (running_tracer_has_widget_backend ticks_1kHz _ quiet_world H1).
Defined.

Lemma stop_leaves_no_thread_witness :
  tracked (snd (InitEventTracing true true true quiet_world))
  /\ threads (ShutdownEventTracing ticks_1kHz short_run
                (snd (InitEventTracing true true true quiet_world))) = ∅.
Proof.
  assert (H1 : tracked (snd (InitEventTracing true true true quiet_world))).
  { exists {| mLogTracing := true |}. reflexivity. }
  split; [exact H1|].
  exact (proj2 (stop_leaves_no_thread ticks_1kHz short_run _ H1)).
Defined.
